(** * archpython: naming, placement and generation pipeline of [main.py]

    A shallow embedding of [src/archpython/main.py].

    - Python [str] values are [string]s; [str.lower] and [str.capitalize]
      are those of ASCII text.  On other characters Python maps case by the
      Unicode tables, which are not modelled: a statement whose truth
      depends on the case mapping itself is made for ASCII names
      ([ascii_text]).
    - A [pathlib.Path] is its [parts] tuple, POSIX flavour: joining splits
      at slashes, drops empty and ["."] components and lets an absolute
      operand replace the path.  As in [pathlib], [".."] is a component like
      any other.
    - The file system is the list of its entries, each a directory or a
      regular file with its text, in the order a directory listing
      enumerates them.  An entry is found under the path it was stored
      under: the disk resolves neither [".."] nor symbolic links, and keeps
      relative and absolute paths apart.  It is the system's disk for the
      paths without a [".."] component ([direct]); a statement that tells
      paths apart, or says where a run writes, is made for such paths.  The
      system calls fail for the reasons that depend on the tree (missing,
      existing, not a directory, is a directory); permissions and concurrent
      processes are outside the model.
    - The generators run in a state-and-exception monad over the disk and
      the console; an exception keeps the effects that came before it.
    - The prompts of [get_service_config] and the text of the Jinja2
      templates are parameters. *)

From stdpp Require Import base list strings numbers pretty.
From Stdlib Require Import Ascii String.

#[local] Arguments String.append !_ _ / : simpl nomatch.

(** ** Python [str] methods used by [main.py] *)
Module Str.

Definition is_upper (c : ascii) : bool :=
  (Ascii.leb "A" c && Ascii.leb c "Z")%char.

Definition is_lower (c : ascii) : bool :=
  (Ascii.leb "a" c && Ascii.leb c "z")%char.

Definition is_digit (c : ascii) : bool :=
  (Ascii.leb "0" c && Ascii.leb c "9")%char.

Definition lower_char (c : ascii) : ascii :=
  if is_upper c then ascii_of_nat (nat_of_ascii c + 32) else c.

Definition upper_char (c : ascii) : ascii :=
  if is_lower c then ascii_of_nat (nat_of_ascii c - 32) else c.

(** [s.lower()] on ASCII text: the letters [A] to [Z] become [a] to [z]
    and every other character is kept.  (Python also maps the letters
    outside ASCII; they are kept here.) *)
Fixpoint lower (s : string) : string :=
  match s with
  | EmptyString => EmptyString
  | String c s' => String (lower_char c) (lower s')
  end.

(** [s.capitalize()] on ASCII text: first character upper-cased, the rest
    lower-cased.  (Python title-cases and lower-cases the letters outside
    ASCII as well; they are kept here.) *)
Definition capitalize (s : string) : string :=
  match s with
  | EmptyString => EmptyString
  | String c s' => String (upper_char c) (lower s')
  end.

(** [s.split(sep)] for a one-character separator: never empty, and an empty
    piece for every leading, trailing or doubled separator. *)
Fixpoint split (sep : ascii) (s : string) : list string :=
  match s with
  | EmptyString => [EmptyString]
  | String c s' =>
      if Ascii.eqb c sep then EmptyString :: split sep s'
      else match split sep s' with
           | w :: ws => String c w :: ws
           | [] => [String c EmptyString]
           end
  end.

(** ["".join(ws)] *)
Definition join (ws : list string) : string :=
  foldr String.append EmptyString ws.

(** [sep.join(ws)] *)
Fixpoint join_with (sep : string) (ws : list string) : string :=
  match ws with
  | [] => EmptyString
  | [w] => w
  | w :: ws' => w +:+ sep +:+ join_with sep ws'
  end.

(** [s.startswith(p)] *)
Definition startswith (p s : string) : bool := String.prefix p s.

(** [s.replace(old, new)] for a non-empty [old]: the text is scanned from the
    left; at an occurrence of [old] the replacement is emitted and the
    occurrence skipped ([skip] counts the characters of it still to drop), so
    occurrences are replaced left to right without overlap. *)
Fixpoint replace_from (old new : string) (skip : nat) (s : string) : string :=
  match s with
  | EmptyString => EmptyString
  | String c s' =>
      match skip with
      | S k => replace_from old new k s'
      | O =>
          if String.prefix old s
          then new +:+ replace_from old new (String.length old - 1) s'
          else String c (replace_from old new 0 s')
      end
  end.

Definition replace (old new s : string) : string := replace_from old new 0 s.

End Str.

(** ** [pathlib.PurePosixPath], as its [parts] *)
Module Path.

(** The parts of a path: an absolute path starts with its root ["/"]
    (or ["//"]); the empty list is the current directory ["."]. *)
Abbreviation t := (list string).

(** The root a string starts with: exactly two leading slashes are kept as
    ["//"], any other number collapses to ["/"]. *)
Definition anchor (s : string) : list string :=
  if Str.startswith "///" s then ["/"]
  else if Str.startswith "//" s then ["//"]
  else if Str.startswith "/" s then ["/"]
  else [].

(** The components of a string: empty ones and ["."] are dropped. *)
Definition segments (s : string) : list string :=
  filter (λ w, w ≠ "" ∧ w ≠ ".") (Str.split "/" s).

(** [Path(s)] *)
Definition of_string (s : string) : t := anchor s ++ segments s.

(** [p / s]: an absolute [s] replaces [p]. *)
Definition joinpath (p : t) (s : string) : t :=
  match anchor s with
  | [] => p ++ segments s
  | _ :: _ => of_string s
  end.

(** The current directory and the roots. *)
Definition is_anchor (p : t) : bool :=
  bool_decide (p = [] ∨ p = ["/"] ∨ p = ["//"]).

(** [p.name] *)
Definition name (p : t) : string :=
  if is_anchor p then "" else List.last p "".

(** [str(p)] *)
Definition str (p : t) : string :=
  match p with
  | [] => "."
  | r :: ws => if Str.startswith "/" r then r +:+ Str.join_with "/" ws
               else Str.join_with "/" p
  end.

End Path.

Infix "//" := Path.joinpath (at level 40, left associativity).

(** ** [ServiceConfig] *)
Module ServiceConfig.
Record t : Type := mk {
  name : string;
  module : string;
  type : string;
  create_dtos : bool
}.
End ServiceConfig.

(** The expression ["".join(word.capitalize() for word in s.split("_"))],
    which [main.py] writes out at each of its four uses. *)
Definition toPascal (s : string) : string :=
  Str.join (map Str.capitalize (Str.split "_" s)).

(** ** Exceptions *)

Inductive exn_kind : Type :=
  | FileNotFoundError
  | FileExistsError
  | NotADirectoryError
  | IsADirectoryError
  | ValueError
  | TemplateNotFound.

#[global] Instance exn_kind_eq_dec : EqDecision exn_kind.
Proof. solve_decision. Defined.

(** An exception: its class and [str(e)]. *)
Record exn : Type := Exn { kind : exn_kind; message : string }.

#[global] Instance exn_eq_dec : EqDecision exn.
Proof. solve_decision. Defined.

(** The error numbers of the system calls the generators make. *)
Inductive errno : Type := ENOENT | EEXIST | ENOTDIR | EISDIR.

Definition errno_code (k : errno) : string :=
  match k with
  | ENOENT => "2"
  | EEXIST => "17"
  | ENOTDIR => "20"
  | EISDIR => "21"
  end.

Definition strerror (k : errno) : string :=
  match k with
  | ENOENT => "No such file or directory"
  | EEXIST => "File exists"
  | ENOTDIR => "Not a directory"
  | EISDIR => "Is a directory"
  end.

(** The subclass of [OSError] Python raises for an error number. *)
Definition errno_class (k : errno) : exn_kind :=
  match k with
  | ENOENT => FileNotFoundError
  | EEXIST => FileExistsError
  | ENOTDIR => NotADirectoryError
  | EISDIR => IsADirectoryError
  end.

(** The [OSError] a failed system call on [p] raises. *)
Definition os_error (k : errno) (p : Path.t) : exn :=
  Exn (errno_class k)
      ("[Errno " +:+ errno_code k +:+ "] " +:+ strerror k +:+ ": '" +:+ Path.str p +:+ "'").

(** ** The file system *)

Inductive node : Type :=
  | File (content : string)
  | Dir.

#[global] Instance node_eq_dec : EqDecision node.
Proof. solve_decision. Defined.

(** The entries of the disk, in the order the system enumerates them.  The
    current directory and the roots are not entries: they always exist. *)
Abbreviation fs := (list (Path.t * node)).

Fixpoint lookup_path (d : fs) (p : Path.t) : option node :=
  match d with
  | [] => None
  | (q, n) :: d' => if decide (q = p) then Some n else lookup_path d' p
  end.

(** Put [n] at [p]: in place when [p] is an entry, as a new last entry
    otherwise. *)
Fixpoint store (p : Path.t) (n : node) (d : fs) : fs :=
  match d with
  | [] => [(p, n)]
  | (q, m) :: d' => if decide (q = p) then (q, n) :: d' else (q, m) :: store p n d'
  end.

(** [os.stat]: what is at [p], if anything.  The path is looked up as it
    is written: this is the system's answer for a path without a [".."]
    component, which the system resolves to itself. *)
Definition stat (d : fs) (p : Path.t) : option node :=
  if Path.is_anchor p then Some Dir else lookup_path d p.

Definition is_dir (d : fs) (p : Path.t) : bool :=
  match stat d p with Some Dir => true | _ => false end.

Definition is_file (d : fs) (p : Path.t) : bool :=
  match stat d p with Some (File _) => true | _ => false end.

Definition path_exists (d : fs) (p : Path.t) : bool :=
  match stat d p with Some _ => true | None => false end.

(** Well-formed disks: one entry per path, and every entry lies in a
    directory. *)
Definition wf (d : fs) : Prop :=
  NoDup d.*1 ∧
  Forall (λ e, Path.is_anchor e.1 = false ∧ stat d (removelast e.1) = Some Dir) d.

#[global] Instance wf_dec d : Decision (wf d).
Proof. unfold wf. apply _. Defined.

(** ** The monad of the generators: a world of disk and console, and
    exceptions that keep the effects done before they were raised. *)

Record world : Type := World { disk : fs; console : list string }.

Inductive result (A : Type) : Type :=
  | Ok (a : A)
  | Raised (e : exn).
Arguments Ok {A} a.
Arguments Raised {A} e.

Definition M (A : Type) : Type := world → result A * world.

#[global] Instance M_ret : MRet M := λ A a w, (Ok a, w).

#[global] Instance M_bind : MBind M := λ A B f m w,
  match m w with
  | (Ok a, w') => f a w'
  | (Raised e, w') => (Raised e, w')
  end.

Definition raise {A : Type} (e : exn) : M A := λ w, (Raised e, w).

(** [try: m except (k1, k2, ...) as e: h e] *)
Definition try_except {A : Type} (m : M A) (caught : list exn_kind) (h : exn → M A) : M A :=
  λ w, match m w with
       | (Ok a, w') => (Ok a, w')
       | (Raised e, w') =>
           if bool_decide (kind e ∈ caught) then h e w' else (Raised e, w')
       end.

Definition get_disk : M fs := λ w, (Ok (disk w), w).

(** [console.print(s)] *)
Definition print (s : string) : M unit :=
  λ w, (Ok tt, World (disk w) (console w ++ [s])).

(** [p.exists()] *)
Definition exists_ (p : Path.t) : M bool := λ w, (Ok (path_exists (disk w) p), w).

(** [p.mkdir(parents=True, exist_ok=True)] walks [p] from its first part:
    a part that is a directory is entered, a missing one is created, and a
    part that is a file stops the call ([FileExistsError] when it is [p]
    itself, [NotADirectoryError] when it is above [p]). *)
Fixpoint mkdir_from (target base : Path.t) (todo : list string) (d : fs) : result unit * fs :=
  match todo with
  | [] => (Ok tt, d)
  | s :: rest =>
      let p := base ++ [s] in
      match stat d p with
      | Some Dir => mkdir_from target p rest d
      | Some (File _) =>
          (Raised (os_error (match rest with
                             | [] => EEXIST
                             | _ :: _ => ENOTDIR
                             end) target), d)
      | None => mkdir_from target p rest (store p Dir d)
      end
  end.

Definition mkdir (p : Path.t) : M unit :=
  λ w, let '(r, d) := mkdir_from p [] p (disk w) in (r, World d (console w)).

(** The error of opening a file in [p ++ todo]: the first part of the way
    that is missing or is not a directory. *)
Fixpoint walk (d : fs) (base : Path.t) (todo : list string) : option errno :=
  match todo with
  | [] => None
  | s :: rest =>
      match stat d (base ++ [s]) with
      | Some Dir => walk d (base ++ [s]) rest
      | Some (File _) => Some ENOTDIR
      | None => Some ENOENT
      end
  end.

(** [p.write_text(content)]: the file is created, or truncated and
    rewritten, in a directory that exists. *)
Definition write_text (p : Path.t) (content : string) : M unit :=
  λ w, match walk (disk w) [] (removelast p) with
       | Some k => (Raised (os_error k p), w)
       | None =>
           match stat (disk w) p with
           | Some Dir => (Raised (os_error EISDIR p), w)
           | _ => (Ok tt, World (store p (File content) (disk w)) (console w))
           end
       end.

(** The entries directly inside [p], in enumeration order. *)
Definition children (d : fs) (p : Path.t) : list Path.t :=
  filter (λ q, Path.is_anchor q = false ∧ removelast q = p) d.*1.

(** [p.iterdir()] *)
Definition iterdir (p : Path.t) : M (list Path.t) :=
  λ w, match stat (disk w) p with
       | Some Dir => (Ok (children (disk w) p), w)
       | Some (File _) => (Raised (os_error ENOTDIR p), w)
       | None => (Raised (os_error ENOENT p), w)
       end.

Definition nl : string := String (ascii_of_nat 10) EmptyString.

(** ** [ModuleManager] *)
Module ModuleManager.

Record t : Type := mk { base_path : Path.t }.

(** [ModuleManager()], with the default [base_path]. *)
Definition default : t := mk (Path.of_string "src/modules").

Definition get_available_modules (self : t) : M (list string) :=
  found ← exists_ (base_path self);
  if negb found
  then raise (Exn FileNotFoundError "❌ Diretório src/modules não encontrado")
  else
    entries ← iterdir (base_path self);
    d ← get_disk;
    let modules :=
      Path.name <$>
        filter (λ e, is_dir d e = true ∧ Path.name e ≠ "shared") entries in
    match modules with
    | [] => raise (Exn FileNotFoundError "❌ Nenhum módulo encontrado em src/modules")
    | _ :: _ => mret modules
    end.

Definition get_module_path (self : t) (module_name : string) : Path.t :=
  base_path self // module_name.

End ModuleManager.

(** ** [DTOGenerator] *)
Module DTOGenerator.

Record t : Type := mk {
  module_path : Path.t;
  service_name : string;
  service_type : string;
  dtos_dir : Path.t;
  request_class_name : string;
  response_class_name : string
}.

(** [DTOGenerator(module_path, service_name, service_type)] *)
Definition make (module_path : Path.t) (service_name service_type : string) : t :=
  let self_service_name := Str.lower service_name in
  {| module_path := module_path;
     service_name := self_service_name;
     service_type := service_type;
     dtos_dir :=
       if bool_decide (service_type = "shared")
       then module_path // "services" // self_service_name // "dtos"
       else module_path // "dtos" // service_name;
     request_class_name := toPascal (service_name +:+ "_request_dto");
     response_class_name := toPascal (service_name +:+ "_response_dto") |}.

Definition request_file (self : t) : Path.t :=
  dtos_dir self // (service_name self +:+ "_request_dto.py").

Definition response_file (self : t) : Path.t :=
  dtos_dir self // (service_name self +:+ "_response_dto.py").

Definition init_file (self : t) : Path.t :=
  dtos_dir self // "__init__.py".

Definition request_stub (self : t) : string :=
  "class " +:+ request_class_name self +:+ ":" +:+ nl +:+ "    pass" +:+ nl.

Definition response_stub (self : t) : string :=
  "class " +:+ response_class_name self +:+ ":" +:+ nl +:+ "    pass" +:+ nl.

Definition init_content (self : t) : string :=
  "from ." +:+ service_name self +:+ "_request_dto import " +:+ request_class_name self +:+ nl
  +:+ "from ." +:+ service_name self +:+ "_response_dto import " +:+ response_class_name self +:+ nl
  +:+ nl
  +:+ "__all__ = ['" +:+ request_class_name self +:+ "', '" +:+ response_class_name self +:+ "']" +:+ nl.

Definition duplicate (self : t) : exn :=
  Exn FileExistsError ("❌ Já existem DTOs para " +:+ service_name self).

Definition generate (self : t) : M (string * string) :=
  _ ← mkdir (dtos_dir self);
  request_there ← exists_ (request_file self);
  there ← (if request_there : bool then mret true else exists_ (response_file self));
  if there : bool
  then raise (duplicate self)
  else
    _ ← write_text (request_file self) (request_stub self);
    _ ← write_text (response_file self) (response_stub self);
    _ ← write_text (init_file self) (init_content self);
    mret (request_class_name self, response_class_name self).

End DTOGenerator.

(** ** [ServiceGenerator] *)

(** A Jinja2 template: [template service_name request_dto response_dto] is
    [template.render(service_name=..., request_dto=..., response_dto=...)]. *)
Definition Template : Type := string → string → string → string.

(** The Jinja2 environment: [env name] is [env.get_template(name)], and
    [None] when there is no such template.  The templates are data of the
    package, so the environment is a parameter of the generator. *)
Definition Environment : Type := string → option Template.

Module ServiceGenerator.

Record t : Type := mk {
  module_path : Path.t;
  config : ServiceConfig.t;
  service_name : string;
  service_dir : Path.t;
  service_class_name : string;
  adapter_class_name : string;
  env : Environment
}.

(** [ServiceGenerator(module_path, config)] *)
Definition make (env : Environment) (module_path : Path.t) (config : ServiceConfig.t) : t :=
  let self_service_name := Str.lower (ServiceConfig.name config) in
  {| module_path := module_path;
     config := config;
     service_name := self_service_name;
     service_dir :=
       if bool_decide (ServiceConfig.type config = "shared")
       then module_path // "services" // self_service_name
       else module_path // "services" // ServiceConfig.type config;
     service_class_name := toPascal (ServiceConfig.name config) +:+ "Service";
     adapter_class_name := toPascal (ServiceConfig.type config) +:+ "Service";
     env := env |}.

(** A Python string is true when it is not empty. *)
Definition truthy (s : string) : bool := negb (bool_decide (s = "")).

Definition _get_template_content (self : t) (request_class response_class : string) : M string :=
  let name := ServiceConfig.type (config self) +:+ "_service.j2" in
  match env self name with
  | None => raise (Exn TemplateNotFound name)
  | Some template =>
      let content :=
        template (Str.replace "Service" "" (service_class_name self))
                 (if truthy request_class then request_class else "None")
                 (if truthy response_class then response_class else "None") in
      mret content
  end.

Definition service_file (self : t) : Path.t :=
  service_dir self // (service_name self +:+ "_service.py").

Definition duplicate (self : t) : exn :=
  Exn FileExistsError ("❌ Já existe um service " +:+ service_name self +:+ "_service.py").

Definition generate (self : t) (request_class response_class : string) : M unit :=
  _ ← mkdir (service_dir self);
  there ← exists_ (service_file self);
  if there : bool
  then raise (duplicate self)
  else
    service_content ← _get_template_content self request_class response_class;
    let service_content :=
      if ServiceConfig.create_dtos (config self)
      then
        if bool_decide (ServiceConfig.type (config self) = "shared")
        then
          "from src.modules." +:+ ServiceConfig.module (config self) +:+ ".services."
          +:+ service_name self +:+ ".dtos import " +:+ request_class +:+ ", "
          +:+ response_class +:+ nl +:+ nl +:+ service_content
        else
          "from src.modules." +:+ ServiceConfig.module (config self) +:+ ".dtos."
          +:+ service_name self +:+ " import " +:+ request_class +:+ ", "
          +:+ response_class +:+ nl +:+ nl +:+ service_content
      else service_content in
    write_text (service_file self) service_content.

End ServiceGenerator.

(** ** The commands *)

(** [generate_module(name)] *)
Definition generate_module (name : string) : M unit :=
  let module_path := Path.of_string ("src/modules/" +:+ name) in
  _ ← mkdir module_path;
  print "[bold green]✅ Módulo criado com sucesso![/bold green]".

(** [generate_service()].  The prompts of [get_service_config] are outside
    the embedding: the command takes that call as a computation. *)
Definition generate_service (env : Environment) (get_service_config : M ServiceConfig.t) : M unit :=
  try_except
    (config ← get_service_config;
     let module_manager := ModuleManager.default in
     let module_path :=
       ModuleManager.get_module_path module_manager (ServiceConfig.module config) in
     classes ←
       (if ServiceConfig.create_dtos config
        then
          let dto_generator :=
            DTOGenerator.make module_path (ServiceConfig.name config)
                              (ServiceConfig.type config) in
          classes ← DTOGenerator.generate dto_generator;
          _ ← print ("[bold green]✅ DTOs criados em "
                     +:+ Path.str (DTOGenerator.dtos_dir dto_generator)
                     +:+ "[/bold green]");
          mret classes
        else mret ("", ""));
     let service_generator := ServiceGenerator.make env module_path config in
     _ ← ServiceGenerator.generate service_generator classes.1 classes.2;
     print ("[bold green]✅ Service criado em "
            +:+ Path.str (ServiceGenerator.service_file service_generator)
            +:+ "[/bold green]"))
    [FileNotFoundError; FileExistsError; ValueError]
    (λ e, print ("[bold red]" +:+ message e +:+ "[/bold red]")).

(** ** [get_service_config] *)

(** A [rich] table: its title, its columns and its rows (the styles are
    left to the renderer). *)
Record Table : Type := mk_table {
  table_title : string;
  table_columns : list string;
  table_rows : list (list string)
}.

(** What [get_service_config] takes from outside [main.py]: the operator
    behind [Prompt.ask], the built-in [int] and the renderer of [rich].
    - [ask T prompt default choices] is
      [Prompt.ask(prompt, default=..., choices=...)];
    - [int_ T s] is [int(s)], [None] when it raises [ValueError], whose
      message is then [int_error T s];
    - [render T title table] is the text [console.print(Panel(table,
      title=title))] shows. *)
Record Terminal : Type := mk_terminal {
  ask : string → option string → option (list string) → M string;
  int_ : string → option Z;
  int_error : string → string;
  render : string → Table → string
}.

(** [str(i)] for an index of [enumerate]. *)
Definition str_nat (n : nat) : string := pretty n.

(** [int(s)] *)
Definition int (T : Terminal) (s : string) : M Z :=
  match int_ T s with
  | Some n => mret n
  | None => raise (Exn ValueError (int_error T s))
  end.

(** The table of [enumerate(items, 1)] under two columns. *)
Definition numbered_table (title column : string) (items : list string) : Table :=
  mk_table title ["Número"; column] (imap (λ i item, [str_nat (S i); item]) items).

Definition service_types : list string := ["domain"; "application"; "infra"; "shared"].

Definition ask_create_dtos (T : Terminal) : M bool :=
  answer ← ask T "[bold blue]Deseja criar os DTOs automaticamente?[/bold blue]"
              (Some "s") (Some ["s"; "n"]);
  mret (bool_decide (answer = "s")).

(** [get_service_config()].  The two list accesses come after their range
    checks, so the index is in the list. *)
Definition get_service_config (T : Terminal) : M ServiceConfig.t :=
  _ ← print (render T "[bold blue]Selecione o Tipo de Serviço[/bold blue]"
               (numbered_table "Tipos de Serviço Disponíveis" "Tipo" service_types));
  answer ← ask T "Digite o número do tipo de serviço" (Some "1") None;
  n ← int T answer;
  let type_index := (n - 1)%Z in
  if (type_index <? 0)%Z || (type_index >=? Z.of_nat (List.length service_types))%Z
  then raise (Exn ValueError "❌ Tipo de serviço inválido")
  else
    let selected_type := default "" (service_types !! Z.to_nat type_index) in
    service_name ← ask T "[bold blue]Digite o nome do serviço[/bold blue]" None None;
    if bool_decide (selected_type = "shared")
    then
      create_dtos ← ask_create_dtos T;
      mret (ServiceConfig.mk service_name "shared" selected_type create_dtos)
    else
      let module_manager := ModuleManager.default in
      available_modules ← ModuleManager.get_available_modules module_manager;
      _ ← print (render T "[bold blue]Selecione o Módulo[/bold blue]"
                   (numbered_table "Módulos Disponíveis" "Módulo" available_modules));
      answer ← ask T "Digite o número do módulo" (Some "1") None;
      n ← int T answer;
      let module_index := (n - 1)%Z in
      if (module_index <? 0)%Z || (module_index >=? Z.of_nat (List.length available_modules))%Z
      then raise (Exn ValueError "❌ Módulo inválido")
      else
        create_dtos ← ask_create_dtos T;
        mret (ServiceConfig.mk service_name
                (default "" (available_modules !! Z.to_nat module_index))
                selected_type create_dtos).

(** ** Vocabulary of the statements *)

(** No character of [s] is [c]. *)
Fixpoint free_of (c : ascii) (s : string) : bool :=
  match s with
  | EmptyString => true
  | String x s' => negb (Ascii.eqb x c) && free_of c s'
  end.

(** The last piece of a string cut at its slashes. *)
Definition last_piece (s : string) : string := List.last (Str.split "/" s) "".

(** Everything on the way from [base] to [base ++ todo] is a directory. *)
Definition all_dirs (d : fs) (base : Path.t) (todo : list string) : Prop :=
  ∀ pre post, todo = pre ++ post → pre ≠ [] → stat d (base ++ pre) = Some Dir.

(** No part of the way to [base ++ todo] is a regular file. *)
Fixpoint clear_from (d : fs) (base : Path.t) (todo : list string) : bool :=
  match todo with
  | [] => true
  | s :: rest => negb (is_file d (base ++ [s])) && clear_from d (base ++ [s]) rest
  end.

Definition clear (d : fs) (p : Path.t) : bool := clear_from d [] p.

(** The regular files of a disk, in enumeration order. *)
Definition files (d : fs) : list Path.t := (filter (λ e, e.2 ≠ Dir) d).*1.

(** The package an import of the DTOs names: the [dtos] package of the
    service for a shared service, the [dtos.<name>] package of the module
    otherwise. *)
Definition dto_package (config : ServiceConfig.t) : string :=
  if bool_decide (ServiceConfig.type config = "shared")
  then "src.modules." +:+ ServiceConfig.module config +:+ ".services."
       +:+ Str.lower (ServiceConfig.name config) +:+ ".dtos"
  else "src.modules." +:+ ServiceConfig.module config +:+ ".dtos."
       +:+ Str.lower (ServiceConfig.name config).

Definition import_line (config : ServiceConfig.t) (request_class response_class : string) : string :=
  "from " +:+ dto_package config +:+ " import " +:+ request_class +:+ ", " +:+ response_class.

(** The claim that the two failures of the catalog are of different kinds:
    a missing root and a root without modules raise exceptions of different
    classes. *)
Definition catalog_error_kinds_differ : Prop :=
  ∀ self w1 w2 e1 e2 w1' w2',
    path_exists (disk w1) (ModuleManager.base_path self) = false →
    is_dir (disk w2) (ModuleManager.base_path self) = true →
    ModuleManager.get_available_modules self w1 = (Raised e1, w1') →
    ModuleManager.get_available_modules self w2 = (Raised e2, w2') →
    kind e1 ≠ kind e2.

(** Snake case: lower-case letters, digits and underscores. *)
Fixpoint valid_snake (s : string) : bool :=
  match s with
  | EmptyString => true
  | String c s' =>
      (Str.is_lower c || Str.is_digit c || Ascii.eqb c "_") && valid_snake s'
  end.

(** No character of [s] is an upper-case letter. *)
Fixpoint no_upper (s : string) : bool :=
  match s with
  | EmptyString => true
  | String c s' => negb (Str.is_upper c) && no_upper s'
  end.

(** [toPascal] in the words of the specification: split on underscore,
    capitalize the first letter of each token, concatenate. *)
Definition capitalize_first (w : string) : string :=
  match w with
  | EmptyString => EmptyString
  | String c w' => String (Str.upper_char c) w'
  end.

Definition toPascal_spec (s : string) : string :=
  Str.join (map capitalize_first (Str.split "_" s)).

(** A suffix stripped from the end of a string, when it ends with it. *)
Definition removesuffix (suffix s : string) : string :=
  let n := String.length s - String.length suffix in
  if String.eqb (String.substring n (String.length suffix) s) suffix
  then String.substring 0 n s
  else s.

(** [old] occurs somewhere in [s]. *)
Fixpoint occurs (old s : string) : bool :=
  match s with
  | EmptyString => String.prefix old EmptyString
  | String _ s' => String.prefix old s || occurs old s'
  end.

(** A plain file name: not empty, not ["."] nor [".."], without slash. *)
Definition plain (s : string) : bool :=
  negb (bool_decide (s = "")) && negb (bool_decide (s = "."))
  && negb (bool_decide (s = "..")) && free_of "/" s.

(** What a run may do to a disk when it may write the paths [ps] only:
    regular files elsewhere are as before, directories stay directories and
    nothing that existed is gone. *)
Definition touches_only (ps : list Path.t) (d d' : fs) : Prop :=
  (∀ q, q ∉ ps → ∀ c, stat d' q = Some (File c) ↔ stat d q = Some (File c))
  ∧ (∀ q, stat d q = Some Dir → stat d' q = Some Dir)
  ∧ (∀ q, path_exists d q = true → path_exists d' q = true).

(** A path the system resolves to itself: none of its components is
    [".."].  On such paths the disk of the model is the disk of the system,
    and two different paths are two different places. *)
Definition direct (p : Path.t) : bool := bool_decide (".." ∉ p).

(** ASCII text, on which [Str.lower] and [Str.capitalize] are Python's
    [str.lower] and [str.capitalize]. *)
Fixpoint ascii_text (s : string) : bool :=
  match s with
  | EmptyString => true
  | String c s' => (nat_of_ascii c <? 128) && ascii_text s'
  end.

(** The last clause of the specification of the DTO emitter, in its words:
    a successful run creates exactly three files, so the disk has three more
    regular files after it than before. *)
Definition dto_emit_creates_three_files : Prop :=
  ∀ module_path name type w classes w',
    wf (disk w) →
    DTOGenerator.generate (DTOGenerator.make module_path name type) w = (Ok classes, w') →
    List.length (files (disk w')) = List.length (files (disk w)) + 3.

(** The prompts of [get_service_config] and what it shows. *)
Definition type_prompt : string := "Digite o número do tipo de serviço".
Definition name_prompt : string := "[bold blue]Digite o nome do serviço[/bold blue]".
Definition module_prompt : string := "Digite o número do módulo".
Definition dtos_prompt : string :=
  "[bold blue]Deseja criar os DTOs automaticamente?[/bold blue]".

Definition types_panel (T : Terminal) : string :=
  render T "[bold blue]Selecione o Tipo de Serviço[/bold blue]"
    (numbered_table "Tipos de Serviço Disponíveis" "Tipo" service_types).

Definition modules_panel (T : Terminal) (available_modules : list string) : string :=
  render T "[bold blue]Selecione o Módulo[/bold blue]"
    (numbered_table "Módulos Disponíveis" "Módulo" available_modules).

(** The world after [console.print(s)]. *)
Definition shown (s : string) (w : world) : world :=
  World (disk w) (console w ++ [s]).

(** An operator who does not touch the disk while answering. *)
Definition answers_off_disk (T : Terminal) : Prop :=
  ∀ prompt default_answer choices w,
    disk (ask T prompt default_answer choices w).2 = disk w.

(** The lines [generate_service] prints: after the DTOs, after the service
    and in its [except] clause. *)
Definition dtos_created (g : DTOGenerator.t) : string :=
  "[bold green]✅ DTOs criados em " +:+ Path.str (DTOGenerator.dtos_dir g)
  +:+ "[/bold green]".

Definition service_created (g : ServiceGenerator.t) : string :=
  "[bold green]✅ Service criado em " +:+ Path.str (ServiceGenerator.service_file g)
  +:+ "[/bold green]".

Definition reported (e : exn) : string := "[bold red]" +:+ message e +:+ "[/bold red]".

(** The files [generate_service] is to write for a configuration: the three
    DTO files when DTOs are asked for, and the service file. *)
Definition targets (env : Environment) (config : ServiceConfig.t) : list Path.t :=
  let module_path :=
    ModuleManager.get_module_path ModuleManager.default (ServiceConfig.module config) in
  let dto :=
    DTOGenerator.make module_path (ServiceConfig.name config) (ServiceConfig.type config) in
  (if ServiceConfig.create_dtos config
   then [DTOGenerator.request_file dto; DTOGenerator.response_file dto;
         DTOGenerator.init_file dto]
   else [])
  ++ [ServiceGenerator.service_file (ServiceGenerator.make env module_path config)].

(** Every path [generate_service] hands to the system for a configuration:
    the directories it makes and the files it is to write. *)
Definition touched (env : Environment) (config : ServiceConfig.t) : list Path.t :=
  let module_path :=
    ModuleManager.get_module_path ModuleManager.default (ServiceConfig.module config) in
  let dto :=
    DTOGenerator.make module_path (ServiceConfig.name config) (ServiceConfig.type config) in
  (if ServiceConfig.create_dtos config then [DTOGenerator.dtos_dir dto] else [])
  ++ [ServiceGenerator.service_dir (ServiceGenerator.make env module_path config)]
  ++ targets env config.

(** ** Sample data *)

(** An operator who answers each prompt from a script (the default of the
    prompt, or nothing, when the script has no answer for it), an [int] for
    one decimal digit and a renderer that shows the titles. *)
Definition sample_terminal (script : list (string * string)) : Terminal :=
  {| ask := λ prompt default_answer choices,
       mret (default (default "" default_answer)
                     ((λ found, found.2.2) <$> list_find (λ a, a.1 = prompt) script));
     int_ := λ s,
       match s with
       | String c EmptyString =>
           if Str.is_digit c then Some (Z.of_nat (nat_of_ascii c - 48)) else None
       | _ => None
       end;
     int_error := λ s, "invalid literal for int() with base 10: '" +:+ s +:+ "'";
     render := λ title table, title +:+ nl +:+ table_title table |}.

(** A template for the examples, and an environment with one such
    template for each of the four layers. *)
Definition sample_template (layer : string) : Template := λ service_name request_dto response_dto,
  "# " +:+ layer +:+ nl
  +:+ "class " +:+ service_name +:+ "Service:" +:+ nl
  +:+ "    request = " +:+ request_dto +:+ nl
  +:+ "    response = " +:+ response_dto +:+ nl.

Definition sample_env : Environment := λ name,
  if bool_decide (name ∈ ["domain_service.j2"; "application_service.j2";
                          "infra_service.j2"; "shared_service.j2"])
  then Some (sample_template name)
  else None.

Definition billing : Path.t := ["src"; "modules"; "billing"].

(** A modules root with the modules billing and inventory and the shared
    bucket between them. *)
Definition modules_disk : fs :=
  [ (["src"], Dir);
    (["src"; "modules"], Dir);
    (["src"; "modules"; "billing"], Dir);
    (["src"; "modules"; "shared"], Dir);
    (["src"; "modules"; "inventory"], Dir) ].

(** The same, where only the response DTO of checkout is there. *)
Definition response_only_disk : fs :=
  modules_disk ++
  [ (billing ++ ["dtos"], Dir);
    (billing ++ ["dtos"; "checkout"], Dir);
    (billing ++ ["dtos"; "checkout"; "checkout_response_dto.py"], File "") ].

(** The same, where the invoice service of the application layer is there. *)
Definition invoice_disk : fs :=
  modules_disk ++
  [ (billing ++ ["services"], Dir);
    (billing ++ ["services"; "application"], Dir);
    (billing ++ ["services"; "application"; "invoice_service.py"], File "# by hand") ].

(** A modules root with the shared bucket only. *)
Definition shared_only_disk : fs :=
  [ (["src"], Dir); (["src"; "modules"], Dir); (["src"; "modules"; "shared"], Dir) ].

(** A disk with a file at the root and no modules. *)
Definition stray_disk : fs := [ (["/"; "x_service.py"], File "") ].

(** The same, where the file at the root has the name of a request DTO. *)
Definition stray_dto_disk : fs := [ (["/"; "x_request_dto.py"], File "") ].

(** The modules, where the DTO package of checkout has its [__init__.py]
    and neither of its DTOs. *)
Definition stale_init_disk : fs :=
  modules_disk ++
  [ (billing ++ ["dtos"], Dir);
    (billing ++ ["dtos"; "checkout"], Dir);
    (billing ++ ["dtos"; "checkout"; "__init__.py"], File "# stale") ].

(** * Properties *)

(** ** Strings *)

Lemma append_assoc (a b c : string) : (a +:+ b) +:+ c = a +:+ (b +:+ c).
Proof. induction a as [|x a IH]; simpl; [done | by rewrite IH]. Qed.

Lemma length_append (a b : string) :
  String.length (a +:+ b) = String.length a + String.length b.
Proof. induction a as [|x a IH]; simpl; [done | by rewrite IH]. Qed.

Lemma split_free_of sep s : free_of sep s = true → Str.split sep s = [s].
Proof.
  induction s as [|x s IH]; simpl; [done|].
  intros [Hx Hs]%andb_true_iff. apply negb_true_iff in Hx. rewrite Hx.
  by rewrite (IH Hs).
Qed.

(** Appending text without separator extends the last piece. *)
Lemma split_append sep s t :
  free_of sep t = true →
  ∃ ws w, Str.split sep s = ws ++ [w] ∧ Str.split sep (s +:+ t) = ws ++ [w +:+ t].
Proof.
  intros Ht. induction s as [|x s (ws & w & Hs & Hst)]; simpl.
  - exists [], "". by rewrite split_free_of.
  - destruct (Ascii.eqb x sep).
    + exists ("" :: ws), w. by rewrite Hs, Hst.
    + rewrite Hs, Hst. destruct ws as [|w0 ws]; simpl.
      * by exists [], (String x w).
      * by exists (String x w0 :: ws), w.
Qed.

Lemma lower_char_slash c : Ascii.eqb (Str.lower_char c) "/" = Ascii.eqb c "/".
Proof. by destruct c as [[] [] [] [] [] [] [] []]. Qed.

Lemma startswith_slash_cons c s : Str.startswith "/" (String c s) = Ascii.eqb c "/".
Proof.
  unfold Str.startswith. cbn [String.prefix].
  destruct (ascii_dec "/" c) as [<-|Hc]; [by destruct s|].
  symmetry. apply Ascii.eqb_neq. congruence.
Qed.

Lemma startswith_slash_lower s t :
  Str.startswith "/" s = false → Str.startswith "/" t = false →
  Str.startswith "/" (Str.lower s +:+ t) = false.
Proof.
  destruct s as [|c s]; cbn [Str.lower String.append]; [done|].
  rewrite !startswith_slash_cons. by rewrite lower_char_slash.
Qed.

Lemma free_of_slash_lower s : free_of "/" (Str.lower s) = free_of "/" s.
Proof.
  induction s as [|c s IH]; simpl; [done|]. by rewrite lower_char_slash, IH.
Qed.

Lemma free_of_startswith s : free_of "/" s = true → Str.startswith "/" s = false.
Proof.
  destruct s as [|c s]; [done|]. cbn [free_of]. rewrite startswith_slash_cons.
  by intros [->%negb_true_iff _]%andb_true_iff.
Qed.

(** ** Paths *)

Lemma anchor_relative s : Str.startswith "/" s = false → Path.anchor s = [].
Proof.
  intros Hs. unfold Path.anchor. rewrite Hs.
  destruct s as [|c s]; [done|]. rewrite startswith_slash_cons in Hs.
  unfold Str.startswith. cbn [String.prefix].
  destruct (ascii_dec "/" c) as [<-|]; [done|done].
Qed.

Lemma joinpath_relative p s : Str.startswith "/" s = false → p // s = p ++ Path.segments s.
Proof. intros Hs. unfold Path.joinpath. by rewrite anchor_relative. Qed.

Lemma segments_append s t :
  free_of "/" t = true → 2 ≤ String.length t →
  ∃ mid, Path.segments (s +:+ t) = mid ++ [last_piece s +:+ t]
       ∧ (free_of "/" s = true → mid = []).
Proof.
  intros Ht Hlen. destruct (split_append "/" s t Ht) as (ws & w & Hs & Hst).
  unfold Path.segments, last_piece. rewrite Hst, Hs, last_last, filter_app.
  exists (filter (λ w, w ≠ "" ∧ w ≠ ".") ws). split.
  - f_equal. rewrite filter_cons_True; [done|].
    split; intros Heq; apply (f_equal String.length) in Heq;
      rewrite length_append in Heq; simpl in Heq; lia.
  - intros Hfree. rewrite (split_free_of _ _ Hfree) in Hs.
    destruct ws as [|? [|? ?]]; simplify_eq/=; done.
Qed.

Lemma joinpath_append_last p s t :
  free_of "/" t = true → 2 ≤ String.length t →
  last (p // (s +:+ t)) = Some (last_piece s +:+ t).
Proof.
  intros Ht Hlen. destruct (segments_append s t Ht Hlen) as (mid & Hseg & _).
  unfold Path.joinpath, Path.of_string. rewrite Hseg.
  destruct (Path.anchor _); by rewrite !app_assoc, last_snoc.
Qed.

(** ** The disk *)

Lemma lookup_store p n d q :
  lookup_path (store p n d) q = if decide (p = q) then Some n else lookup_path d q.
Proof.
  induction d as [|[r m] d IH]; cbn [store lookup_path].
  - done.
  - destruct (decide (r = p)) as [->|Hrp]; cbn [lookup_path].
    + by repeat case_decide; simplify_eq.
    + rewrite IH. by repeat case_decide; simplify_eq.
Qed.

Lemma stat_store p n d q :
  stat (store p n d) q =
    if Path.is_anchor q then Some Dir
    else if decide (p = q) then Some n else lookup_path d q.
Proof. unfold stat. by rewrite lookup_store. Qed.

Lemma stat_store_eq p n d :
  Path.is_anchor p = false → stat (store p n d) p = Some n.
Proof. intros Hp. rewrite stat_store, Hp. by rewrite decide_True. Qed.

Lemma stat_store_ne p n d q : p ≠ q → stat (store p n d) q = stat d q.
Proof. intros Hpq. rewrite stat_store. unfold stat. by rewrite decide_False. Qed.

Lemma stat_None_not_anchor d p : stat d p = None → Path.is_anchor p = false.
Proof. unfold stat. by destruct (Path.is_anchor p). Qed.

Lemma stat_not_dir_not_anchor d p : stat d p ≠ Some Dir → Path.is_anchor p = false.
Proof. unfold stat. by destruct (Path.is_anchor p). Qed.

Lemma is_anchor_app p q : q ≠ [] → Path.is_anchor (p ++ q) = true → p = [].
Proof.
  unfold Path.is_anchor. intros Hq Ha%bool_decide_eq_true.
  destruct p as [|x p]; [done|]. destruct q as [|z q]; [done|].
  destruct Ha as [?|[?|?]]; destruct p; simplify_eq.
Qed.

Lemma lookup_path_elem_of d p n : lookup_path d p = Some n → (p, n) ∈ d.
Proof.
  induction d as [|[q m] d IH]; cbn [lookup_path]; [done|].
  case_decide; intros; simplify_eq; [left | right; auto].
Qed.

Lemma wf_lookup d p n :
  wf d → lookup_path d p = Some n →
  Path.is_anchor p = false ∧ stat d (removelast p) = Some Dir.
Proof.
  intros [_ Hall] Hp%lookup_path_elem_of.
  by apply (proj1 (Forall_forall _ _) Hall) in Hp.
Qed.

Lemma wf_check d : bool_decide (wf d) = true → wf d.
Proof. apply bool_decide_eq_true_1. Qed.

(** On a well-formed disk everything above an entry is a directory. *)
Lemma wf_ancestors d p q n :
  wf d → q ≠ [] → stat d (p ++ q) = Some n → stat d p = Some Dir.
Proof.
  intros Hd. pose proof (λ p n, wf_lookup d p n Hd) as Hwf. revert n. induction q as [|x q IH] using rev_ind; [done|].
  intros n _ Hst. unfold stat in Hst.
  destruct (Path.is_anchor (p ++ q ++ [x])) eqn:Ha.
  - apply is_anchor_app in Ha as ->; [done | by destruct q].
  - apply Hwf in Hst as [_ Hup]. rewrite app_assoc, removelast_last in Hup.
    destruct q as [|y q]; [by rewrite app_nil_r in Hup|]. by eapply IH.
Qed.

(** *** [mkdir] *)

Lemma all_dirs_cons d base s rest :
  all_dirs d base (s :: rest) ↔
  stat d (base ++ [s]) = Some Dir ∧ all_dirs d (base ++ [s]) rest.
Proof.
  split.
  - intros H. split; [by apply (H [s] rest)|].
    intros pre post -> Hpre. rewrite <-app_assoc. by apply (H (s :: pre) post).
  - intros [Hs H] [|x pre] post Heq Hpre; [done|]. simplify_eq/=.
    destruct pre as [|y pre]; [done|].
    rewrite (cons_middle x base), app_assoc. by eapply H.
Qed.

Lemma mkdir_from_noop tgt base todo d :
  all_dirs d base todo → mkdir_from tgt base todo d = (Ok tt, d).
Proof.
  revert base. induction todo as [|s rest IH]; intros base H; [done|].
  apply all_dirs_cons in H as [Hs H]. cbn [mkdir_from]. rewrite Hs. by apply IH.
Qed.

(** [mkdir] only adds directories, on the way to the target, where nothing
    was; this holds whether the call succeeds or not. *)
Lemma mkdir_from_grows tgt base todo d r d' :
  mkdir_from tgt base todo d = (r, d') →
  ∀ q, stat d' q = stat d q
     ∨ (stat d q = None ∧ stat d' q = Some Dir ∧ q `prefix_of` base ++ todo).
Proof.
  revert base d. induction todo as [|s rest IH]; intros base d Hrun q.
  { left. by simplify_eq/=. }
  cbn [mkdir_from] in Hrun. rewrite (cons_middle s base rest), app_assoc.
  destruct (stat d (base ++ [s])) as [[c|]|] eqn:Hs.
  - left. by simplify_eq.
  - by eapply IH.
  - destruct (IH _ _ Hrun q) as [Heq|(Hnone & Hdir & Hpre)].
    + destruct (decide (base ++ [s] = q)) as [<-|Hne].
      * right. rewrite Heq, stat_store_eq by by eapply stat_None_not_anchor.
        split_and!; [done..|]. by apply prefix_app_r.
      * left. by rewrite Heq, stat_store_ne.
    + destruct (decide (base ++ [s] = q)) as [<-|Hne].
      * rewrite stat_store_eq in Hnone by by eapply stat_None_not_anchor. done.
      * right. by rewrite stat_store_ne in Hnone.
Qed.

Lemma mkdir_from_keeps tgt base todo d r d' q n :
  mkdir_from tgt base todo d = (r, d') → stat d q = Some n → stat d' q = Some n.
Proof.
  intros Hrun Hq. destruct (mkdir_from_grows _ _ _ _ _ _ Hrun q) as [->|[? _]];
    congruence.
Qed.

Lemma mkdir_from_files tgt base todo d r d' q c :
  mkdir_from tgt base todo d = (r, d') →
  stat d' q = Some (File c) ↔ stat d q = Some (File c).
Proof.
  intros Hrun. destruct (mkdir_from_grows _ _ _ _ _ _ Hrun q) as [->|(? & ? & _)];
    [done|]. split; congruence.
Qed.

Lemma mkdir_from_all_dirs tgt base todo d d' :
  mkdir_from tgt base todo d = (Ok tt, d') → all_dirs d' base todo.
Proof.
  revert base d. induction todo as [|s rest IH]; intros base d Hrun.
  { by intros [|??] ? ? ?. }
  cbn [mkdir_from] in Hrun. apply all_dirs_cons.
  destruct (stat d (base ++ [s])) as [[c|]|] eqn:Hs; [done|..].
  - split; [by eapply mkdir_from_keeps | by eapply IH].
  - split; [|by eapply IH]. eapply mkdir_from_keeps; [done|].
    apply stat_store_eq. by eapply stat_None_not_anchor.
Qed.

Lemma all_dirs_target d p : all_dirs d [] p → stat d p = Some Dir.
Proof.
  intros H. destruct p as [|x p]; [done|]. by apply (H (x :: p) []); [rewrite app_nil_r|].
Qed.

Lemma all_dirs_walk d base todo : all_dirs d base todo → walk d base todo = None.
Proof.
  revert base. induction todo as [|s rest IH]; intros base H; [done|].
  apply all_dirs_cons in H as [Hs H]. cbn [walk]. rewrite Hs. by apply IH.
Qed.

Lemma clear_from_store d p base todo :
  clear_from d base todo = true → clear_from (store p Dir d) base todo = true.
Proof.
  revert base. induction todo as [|s rest IH]; intros base; [done|].
  cbn [clear_from]. intros [Hs Hrest]%andb_true_iff. apply andb_true_iff.
  split; [|by apply IH]. apply negb_true_iff. apply negb_true_iff in Hs.
  unfold is_file in *. rewrite stat_store. unfold stat in Hs.
  destruct (Path.is_anchor _); [done|]. by case_decide.
Qed.

Lemma mkdir_from_clear tgt base todo d :
  clear_from d base todo = true → ∃ d', mkdir_from tgt base todo d = (Ok tt, d').
Proof.
  revert base d. induction todo as [|s rest IH]; intros base d; [by eexists|].
  cbn [clear_from mkdir_from]. intros [Hs Hrest]%andb_true_iff.
  apply negb_true_iff in Hs. unfold is_file in Hs.
  destruct (stat d (base ++ [s])) as [[c|]|]; [done|by apply IH|].
  apply IH. by apply clear_from_store.
Qed.

(** ** Running the monad *)

Lemma bind_run {A B : Type} (m : M A) (f : A → M B) w r w' :
  m w = (r, w') →
  (m ≫= f) w = match r with Ok a => f a w' | Raised e => (Raised e, w') end.
Proof. intros Hm. unfold mbind, M_bind. by rewrite Hm. Qed.

Lemma mkdir_run p w r d :
  mkdir_from p [] p (disk w) = (r, d) → mkdir p w = (r, World d (console w)).
Proof. intros Hm. unfold mkdir. by rewrite Hm. Qed.

Lemma mkdir_noop p rest n w :
  wf (disk w) → rest ≠ [] → stat (disk w) (p ++ rest) = Some n →
  mkdir p w = (Ok tt, w).
Proof.
  intros Hwf Hrest Hst. destruct w as [d out]. apply (mkdir_run _ (World d out)).
  apply mkdir_from_noop. intros pre post -> Hpre. cbn [app].
  eapply wf_ancestors with (q := post ++ rest); [done|by destruct post, rest|].
  by rewrite app_assoc.
Qed.

Lemma path_exists_stat d p : path_exists d p = true ↔ ∃ n, stat d p = Some n.
Proof.
  unfold path_exists. destruct (stat d p) as [n|]; split; [by exists n|done|done|].
  by intros [? ?].
Qed.

Lemma path_exists_None d p : path_exists d p = false ↔ stat d p = None.
Proof. unfold path_exists. by destruct (stat d p). Qed.

Lemma write_text_run p c w :
  walk (disk w) [] (removelast p) = None → stat (disk w) p ≠ Some Dir →
  write_text p c w = (Ok tt, World (store p (File c) (disk w)) (console w)).
Proof.
  intros Hwalk Hp. unfold write_text. rewrite Hwalk.
  by destruct (stat (disk w) p) as [[?|]|].
Qed.

Lemma write_text_inv p c w r w' :
  write_text p c w = (r, w') →
  match r with
  | Ok _ => stat (disk w) p ≠ Some Dir
            ∧ w' = World (store p (File c) (disk w)) (console w)
  | Raised _ => w' = w
  end.
Proof.
  unfold write_text. destruct (walk _ _ _); [by intros; simplify_eq|].
  destruct (stat (disk w) p) as [[?|]|]; by intros; simplify_eq.
Qed.

Lemma all_dirs_store d p n base todo :
  stat d p ≠ Some Dir → all_dirs d base todo → all_dirs (store p n d) base todo.
Proof.
  intros Hp H pre post Heq Hpre. specialize (H pre post Heq Hpre).
  rewrite stat_store_ne; [done | congruence].
Qed.

Lemma store_fresh p n d : lookup_path d p = None → store p n d = d ++ [(p, n)].
Proof.
  induction d as [|[q m] d IH]; cbn [store lookup_path app]; [done|].
  case_decide; [done|]. intros Hp. by rewrite IH.
Qed.

Lemma files_store_file p c d :
  stat d p = None → files (store p (File c) d) = files d ++ [p].
Proof.
  intros Hp. unfold stat in Hp. destruct (Path.is_anchor p); [done|].
  rewrite store_fresh by done. unfold files.
  by rewrite filter_app, fmap_app, filter_cons_True.
Qed.

Lemma files_store_over p c c0 d :
  stat d p = Some (File c0) → files (store p (File c) d) = files d.
Proof.
  unfold stat. destruct (Path.is_anchor p); [done|].
  unfold files. induction d as [|[q m] d IH]; cbn [lookup_path store]; [done|].
  case_decide as Hq.
  - intros [= ->]. by rewrite !filter_cons_True.
  - intros Hp. destruct (decide (m ≠ Dir)) as [Hm|Hm].
    + rewrite !filter_cons_True by done. cbn [fmap list_fmap]. f_equal. by apply IH.
    + rewrite !filter_cons_False by done. by apply IH.
Qed.

Lemma files_store_dir p d : stat d p = None → files (store p Dir d) = files d.
Proof.
  intros Hp. unfold stat in Hp. destruct (Path.is_anchor p); [done|].
  rewrite store_fresh by done. unfold files.
  rewrite filter_app, fmap_app, filter_cons_False; [|by intros []].
  by rewrite filter_nil, app_nil_r.
Qed.

Lemma mkdir_from_same_files tgt base todo d r d' :
  mkdir_from tgt base todo d = (r, d') → files d' = files d.
Proof.
  revert base d. induction todo as [|s rest IH]; intros base d Hrun.
  { by simplify_eq/=. }
  cbn [mkdir_from] in Hrun.
  destruct (stat d (base ++ [s])) as [[c|]|] eqn:Hs.
  - by simplify_eq.
  - by eapply IH.
  - rewrite (IH _ _ Hrun). by apply files_store_dir.
Qed.

(** ** Where the generated files lie *)

(** A file name made of a relative service name and a suffix is put below
    the directory it is joined to, directly so when the name has no slash. *)
Lemma joinpath_inside p s t :
  Str.startswith "/" s = false → free_of "/" t = true → 2 ≤ String.length t →
  ∃ mid, p // (Str.lower s +:+ t) = p ++ mid ++ [last_piece (Str.lower s) +:+ t]
       ∧ (free_of "/" s = true → mid = []).
Proof.
  intros Hs Ht Hlen. destruct (segments_append (Str.lower s) t Ht Hlen) as (mid & Hseg & Hmid).
  exists mid. rewrite joinpath_relative, Hseg.
  - split; [done|]. intros Hfree. apply Hmid. by rewrite free_of_slash_lower.
  - apply startswith_slash_lower; [done | by apply free_of_startswith].
Qed.

Lemma init_file_eq g : DTOGenerator.init_file g = DTOGenerator.dtos_dir g ++ ["__init__.py"].
Proof. reflexivity. Qed.

(** The three files of a DTO package are three different paths. *)
Lemma dto_files_distinct g :
  DTOGenerator.request_file g ≠ DTOGenerator.response_file g
  ∧ DTOGenerator.request_file g ≠ DTOGenerator.init_file g
  ∧ DTOGenerator.response_file g ≠ DTOGenerator.init_file g.
Proof.
  assert (2 ≤ String.length "_request_dto.py") as Hlen1 by (cbn; lia).
  assert (2 ≤ String.length "_response_dto.py") as Hlen2 by (cbn; lia).
  pose proof (joinpath_append_last (DTOGenerator.dtos_dir g) (DTOGenerator.service_name g)
                "_request_dto.py" eq_refl Hlen1) as Hreq.
  pose proof (joinpath_append_last (DTOGenerator.dtos_dir g) (DTOGenerator.service_name g)
                "_response_dto.py" eq_refl Hlen2) as Hresp.
  fold (DTOGenerator.request_file g) in Hreq.
  fold (DTOGenerator.response_file g) in Hresp.
  assert (last (DTOGenerator.init_file g) = Some "__init__.py") as Hinit
    by (rewrite init_file_eq; apply last_snoc).
  split_and!; intros Heq.
  - rewrite Heq, Hresp in Hreq. injection Hreq as Hq. by apply (inj _) in Hq.
  - rewrite Heq, Hinit in Hreq. injection Hreq as Hq.
    apply (f_equal String.length) in Hq. rewrite length_append in Hq. cbn in Hq. lia.
  - rewrite Heq, Hinit in Hresp. injection Hresp as Hq.
    apply (f_equal String.length) in Hq. rewrite length_append in Hq. cbn in Hq. lia.
Qed.

Lemma not_prefix_longer {A} (p mid : list A) x : ¬ (p ++ mid ++ [x]) `prefix_of` p.
Proof.
  intros Hpre%prefix_length. rewrite !length_app in Hpre. cbn in Hpre. lia.
Qed.

(** After a successful [mkdir] of [dir], a path below [dir] is as before. *)
Lemma mkdir_from_below tgt dir d r d' mid x :
  mkdir_from tgt [] dir d = (r, d') →
  stat d' (dir ++ mid ++ [x]) = stat d (dir ++ mid ++ [x]).
Proof.
  intros Hrun. destruct (mkdir_from_grows _ _ _ _ _ _ Hrun (dir ++ mid ++ [x]))
    as [?|(_ & _ & Hpre)]; [done|]. cbn [app] in Hpre.
  by apply not_prefix_longer in Hpre.
Qed.

(** * The claims *)

(** C7.  On a well-formed disk where the target file
    [<service>_service.py] of a (relative) service name already exists in the
    service directory, [ServiceGenerator.generate] raises its
    [FileExistsError] and leaves the world as it was: the service file is
    not written. *)
Theorem service_duplicate_rejected env module_path config request_class response_class w :
  let g := ServiceGenerator.make env module_path config in
  wf (disk w) →
  Str.startswith "/" (ServiceConfig.name config) = false →
  path_exists (disk w) (ServiceGenerator.service_file g) = true →
  ServiceGenerator.generate g request_class response_class w
  = (Raised (ServiceGenerator.duplicate g), w)
  ∧ kind (ServiceGenerator.duplicate g) = FileExistsError.
Proof.
  intros g Hwf Hrel Hex. split; [|done].
  assert (2 ≤ String.length "_service.py") as Hlen by (cbn; lia).
  destruct (joinpath_inside (ServiceGenerator.service_dir g) (ServiceConfig.name config)
              "_service.py" Hrel eq_refl Hlen) as (mid & Hfile & _).
  apply path_exists_stat in Hex as [n Hn].
  unfold ServiceGenerator.generate.
  erewrite bind_run; last first.
  { eapply mkdir_noop with (rest := mid ++ [_]); [done|by destruct mid|].
    rewrite <-Hfile. exact Hn. }
  erewrite bind_run by reflexivity.
  fold (ServiceGenerator.service_file g).
  by rewrite (proj2 (path_exists_stat _ _) (ex_intro _ n Hn)).
Qed.

(** C3, as the code has it.  [DTOGenerator.generate] checks the request
    file and the response file before it writes, and does not check the
    re-export file.  On a well-formed disk, for a relative service name and
    targets without [".."]: when the request file or the response file
    exists, the call raises its [FileExistsError] and the world is as it
    was, so no file is created (with only the response file there, the
    request file is not created either).  Otherwise, for a name without slash
    whose DTO directory can be made and whose [__init__.py] is not a
    directory, the call returns the two class names and has written the
    request stub, the response stub and the re-export file; no other path
    gains, loses or changes a file.  It has created three files when there
    was no [__init__.py]: the regular files of the disk are the former ones
    and these three.  It has created two when an [__init__.py] was there:
    that file is rewritten in place, and the regular files of the disk are
    the former ones and the two stubs. *)
Theorem dto_emit_checks_then_writes module_path name type w :
  let g := DTOGenerator.make module_path name type in
  let request_file := DTOGenerator.request_file g in
  let response_file := DTOGenerator.response_file g in
  let init_file := DTOGenerator.init_file g in
  wf (disk w) →
  Str.startswith "/" name = false →
  forallb direct [request_file; response_file; init_file] = true →
  (path_exists (disk w) request_file || path_exists (disk w) response_file = true →
   DTOGenerator.generate g w = (Raised (DTOGenerator.duplicate g), w)
   ∧ kind (DTOGenerator.duplicate g) = FileExistsError)
  ∧
  (path_exists (disk w) request_file || path_exists (disk w) response_file = false →
   free_of "/" name = true →
   clear (disk w) (DTOGenerator.dtos_dir g) = true →
   is_dir (disk w) init_file = false →
   ∃ d',
     DTOGenerator.generate g w
     = (Ok (DTOGenerator.request_class_name g, DTOGenerator.response_class_name g),
        World d' (console w))
     ∧ stat d' request_file = Some (File (DTOGenerator.request_stub g))
     ∧ stat d' response_file = Some (File (DTOGenerator.response_stub g))
     ∧ stat d' init_file = Some (File (DTOGenerator.init_content g))
     ∧ (∀ q c, q ∉ [request_file; response_file; init_file] →
          stat d' q = Some (File c) ↔ stat (disk w) q = Some (File c))
     ∧ (path_exists (disk w) init_file = false →
          files d' = files (disk w) ++ [request_file; response_file; init_file])
     ∧ (path_exists (disk w) init_file = true →
          files d' = files (disk w) ++ [request_file; response_file])).
Proof.
  intros g request_file response_file init_file Hwf Hrel _.
  assert (2 ≤ String.length "_request_dto.py") as Hlen1 by (cbn; lia).
  assert (2 ≤ String.length "_response_dto.py") as Hlen2 by (cbn; lia).
  destruct (joinpath_inside (DTOGenerator.dtos_dir g) name
              "_request_dto.py" Hrel eq_refl Hlen1) as (mid1 & Hreq & Hmid1).
  destruct (joinpath_inside (DTOGenerator.dtos_dir g) name
              "_response_dto.py" Hrel eq_refl Hlen2) as (mid2 & Hresp & Hmid2).
  change (request_file = DTOGenerator.dtos_dir g ++ mid1 ++ [last_piece (Str.lower name) +:+ "_request_dto.py"]) in Hreq.
  change (response_file = DTOGenerator.dtos_dir g ++ mid2 ++ [last_piece (Str.lower name) +:+ "_response_dto.py"]) in Hresp.
  destruct (dto_files_distinct g) as (Hne1 & Hne2 & Hne3).
  fold request_file response_file init_file in Hne1, Hne2, Hne3.
  split.
  - (* a target is there: the directory is too, and the check stops the call *)
    intros Hex. split; [|done]. unfold DTOGenerator.generate.
    fold request_file response_file.
    assert (mkdir (DTOGenerator.dtos_dir g) w = (Ok tt, w)) as Hmk.
    { apply orb_true_iff in Hex as [[n Hn]%path_exists_stat|[n Hn]%path_exists_stat].
      - eapply mkdir_noop with (rest := mid1 ++ [_]); [done|by destruct mid1|].
        rewrite <-Hreq. exact Hn.
      - eapply mkdir_noop with (rest := mid2 ++ [_]); [done|by destruct mid2|].
        rewrite <-Hresp. exact Hn. }
    erewrite bind_run by exact Hmk.
    erewrite bind_run by reflexivity.
    destruct (path_exists (disk w) request_file) eqn:Hex1.
    + by erewrite bind_run by reflexivity.
    + erewrite bind_run by reflexivity. cbn [orb] in Hex. by rewrite Hex.
  - (* no target is there: three writes *)
    intros [Hno1 Hno2]%orb_false_iff Hfree Hclear Hinit.
    apply path_exists_None in Hno1, Hno2.
    rewrite (Hmid1 Hfree) in Hreq. rewrite (Hmid2 Hfree) in Hresp. cbn [app] in Hreq, Hresp.
    destruct (mkdir_from_clear (DTOGenerator.dtos_dir g) [] _ _ Hclear) as [d1 Hmk].
    pose proof (mkdir_from_all_dirs _ _ _ _ _ Hmk) as Hdirs.
    assert (∀ x, stat d1 (DTOGenerator.dtos_dir g ++ [x])
                 = stat (disk w) (DTOGenerator.dtos_dir g ++ [x])) as Hbelow.
    { intros x. apply (mkdir_from_below _ _ _ _ _ [] x Hmk). }
    assert (stat d1 request_file = None) as Hst1 by (by rewrite Hreq, Hbelow, <-Hreq).
    assert (stat d1 response_file = None) as Hst2 by (by rewrite Hresp, Hbelow, <-Hresp).
    assert (stat d1 init_file = stat (disk w) init_file) as Hst3
      by (unfold init_file; rewrite init_file_eq; apply Hbelow).
    assert (stat (disk w) init_file ≠ Some Dir) as Hnd.
    { unfold is_dir in Hinit. by destruct (stat (disk w) init_file) as [[?|]|]. }
    assert (removelast request_file = DTOGenerator.dtos_dir g) as Hup1
      by (rewrite Hreq; apply removelast_last).
    assert (removelast response_file = DTOGenerator.dtos_dir g) as Hup2
      by (rewrite Hresp; apply removelast_last).
    assert (removelast init_file = DTOGenerator.dtos_dir g) as Hup3
      by (unfold init_file; rewrite init_file_eq; apply removelast_last).
    set (d2 := store request_file (File (DTOGenerator.request_stub g)) d1).
    set (d3 := store response_file (File (DTOGenerator.response_stub g)) d2).
    set (d4 := store init_file (File (DTOGenerator.init_content g)) d3).
    assert (all_dirs d2 [] (DTOGenerator.dtos_dir g)) as Hdirs2
      by (apply all_dirs_store; [congruence | done]).
    assert (stat d2 response_file = None) as Hst22
      by (unfold d2; by rewrite stat_store_ne).
    assert (all_dirs d3 [] (DTOGenerator.dtos_dir g)) as Hdirs3
      by (apply all_dirs_store; [congruence | done]).
    assert (stat d3 init_file = stat (disk w) init_file) as Hst33
      by (unfold d3, d2; by rewrite !stat_store_ne).
    exists d4. split_and!.
    + unfold DTOGenerator.generate. fold request_file response_file init_file.
      erewrite bind_run by (by apply mkdir_run).
      erewrite bind_run by reflexivity. cbn [disk].
      rewrite (proj2 (path_exists_None _ _) Hst1).
      erewrite bind_run by reflexivity. cbn [disk].
      rewrite (proj2 (path_exists_None _ _) Hst2).
      erewrite bind_run; last first.
      { apply write_text_run; cbn [disk]; [|congruence].
        rewrite Hup1. by apply all_dirs_walk. }
      erewrite bind_run; last first.
      { apply write_text_run; cbn [disk]; [|fold d2; congruence].
        rewrite Hup2. by apply all_dirs_walk. }
      erewrite bind_run; last first.
      { apply write_text_run; cbn [disk]; [|fold d2 d3; congruence].
        rewrite Hup3. by apply all_dirs_walk. }
      done.
    + unfold d4, d3. rewrite !stat_store_ne by done.
      apply stat_store_eq. by eapply stat_None_not_anchor.
    + unfold d4. rewrite stat_store_ne by done.
      apply stat_store_eq. by eapply stat_None_not_anchor.
    + apply stat_store_eq. by eapply stat_not_dir_not_anchor.
    + intros q c Hq. unfold d4, d3, d2.
      rewrite !stat_store_ne by (intros ->; apply Hq; repeat constructor).
      by eapply mkdir_from_files.
    + intros Hno3%path_exists_None.
      unfold d4. rewrite files_store_file by congruence.
      unfold d3. rewrite files_store_file by done.
      unfold d2. rewrite files_store_file by done.
      rewrite (mkdir_from_same_files _ _ _ _ _ _ Hmk). by rewrite <-!app_assoc.
    + intros Hyes. unfold path_exists in Hyes.
      destruct (stat (disk w) init_file) as [[c0|]|] eqn:Hold; [|done..].
      unfold d4. rewrite (files_store_over _ _ c0) by done.
      unfold d3. rewrite files_store_file by done.
      unfold d2. rewrite files_store_file by done.
      rewrite (mkdir_from_same_files _ _ _ _ _ _ Hmk). by rewrite <-!app_assoc.
Qed.

(** ** Errors of the system calls *)

Lemma mkdir_from_error tgt base todo d e d' :
  mkdir_from tgt base todo d = (Raised e, d') → ∃ k, e = os_error k tgt.
Proof.
  revert base d. induction todo as [|s rest IH]; intros base d; [done|].
  cbn [mkdir_from]. destruct (stat d (base ++ [s])) as [[c|]|]; [|by apply IH..].
  intros. simplify_eq. by eexists.
Qed.

Lemma write_text_error p c w e w' :
  write_text p c w = (Raised e, w') → ∃ k, e = os_error k p.
Proof.
  unfold write_text. destruct (walk _ _ _); [intros; simplify_eq; by eexists|].
  destruct (stat (disk w) p) as [[?|]|]; intros; simplify_eq. by eexists.
Qed.

(** The message of a system error is not the message of a generator. *)
Lemma os_error_not_dto_duplicate k p g : os_error k p ≠ DTOGenerator.duplicate g.
Proof.
  unfold os_error, DTOGenerator.duplicate. intros H. injection H as _ H.
  simpl in H. discriminate.
Qed.

Lemma os_error_not_service_duplicate k p g : os_error k p ≠ ServiceGenerator.duplicate g.
Proof.
  unfold os_error, ServiceGenerator.duplicate. intros H. injection H as _ H.
  simpl in H. discriminate.
Qed.

Lemma mkdir_ok_is_dir p w w' : mkdir p w = (Ok tt, w') → is_dir (disk w') p = true.
Proof.
  unfold mkdir. destruct (mkdir_from p [] p (disk w)) as [r d1] eqn:Hmk.
  intros. simplify_eq. cbn [disk]. unfold is_dir.
  by rewrite (all_dirs_target _ _ (mkdir_from_all_dirs _ _ _ _ _ Hmk)).
Qed.

Lemma mkdir_error p w e w' : mkdir p w = (Raised e, w') → ∃ k, e = os_error k p.
Proof.
  unfold mkdir. destruct (mkdir_from p [] p (disk w)) as [r d1] eqn:Hmk.
  intros. simplify_eq. by eapply mkdir_from_error.
Qed.


(** ** What a run of a generator tells *)

(** When [DTOGenerator.generate] stops at its own check, the directory was
    made and nothing else was done. *)
Lemma dto_generate_duplicate g w w' :
  DTOGenerator.generate g w = (Raised (DTOGenerator.duplicate g), w') →
  mkdir (DTOGenerator.dtos_dir g) w = (Ok tt, w').
Proof.
  unfold DTOGenerator.generate.
  destruct (mkdir (DTOGenerator.dtos_dir g) w) as [[[]|e] w1] eqn:Hmk;
    erewrite bind_run by done; cbv beta iota.
  2:{ intros. simplify_eq. apply mkdir_error in Hmk as [k Hk].
      symmetry in Hk. by apply os_error_not_dto_duplicate in Hk. }
  erewrite bind_run by reflexivity; cbv beta iota.
  destruct (path_exists (disk w1) (DTOGenerator.request_file g)).
  { erewrite bind_run by reflexivity; cbv beta iota. by unfold raise; intros; simplify_eq. }
  erewrite bind_run by reflexivity; cbv beta iota.
  destruct (path_exists (disk w1) (DTOGenerator.response_file g));
    [by unfold raise; intros; simplify_eq|].
  destruct (write_text (DTOGenerator.request_file g) (DTOGenerator.request_stub g) w1)
    as [[[]|e] w2] eqn:Hw1; erewrite bind_run by done; cbv beta iota.
  2:{ intros. simplify_eq. apply write_text_error in Hw1 as [k Hk].
      symmetry in Hk. by apply os_error_not_dto_duplicate in Hk. }
  destruct (write_text (DTOGenerator.response_file g) (DTOGenerator.response_stub g) w2)
    as [[[]|e] w3] eqn:Hw2; erewrite bind_run by done; cbv beta iota.
  2:{ intros. simplify_eq. apply write_text_error in Hw2 as [k Hk].
      symmetry in Hk. by apply os_error_not_dto_duplicate in Hk. }
  destruct (write_text (DTOGenerator.init_file g) (DTOGenerator.init_content g) w3)
    as [[[]|e] w4] eqn:Hw3; erewrite bind_run by done; cbv beta iota.
  2:{ intros. simplify_eq. apply write_text_error in Hw3 as [k Hk].
      symmetry in Hk. by apply os_error_not_dto_duplicate in Hk. }
  done.
Qed.

Lemma get_template_content_inv g request_class response_class w r w' :
  ServiceGenerator._get_template_content g request_class response_class w = (r, w') →
  w' = w ∧ match r with Ok _ => True | Raised e => kind e = TemplateNotFound end.
Proof.
  unfold ServiceGenerator._get_template_content.
  destruct (ServiceGenerator.env g _); unfold mret, M_ret, raise; intros; by simplify_eq.
Qed.

Lemma get_template_content_run g template request_class response_class w :
  ServiceGenerator.env g (ServiceConfig.type (ServiceGenerator.config g) +:+ "_service.j2")
  = Some template →
  ServiceGenerator._get_template_content g request_class response_class w
  = (Ok (template (Str.replace "Service" "" (ServiceGenerator.service_class_name g))
                  (if bool_decide (request_class = "") then "None" else request_class)
                  (if bool_decide (response_class = "") then "None" else response_class)),
     w).
Proof.
  intros Henv. unfold ServiceGenerator._get_template_content, ServiceGenerator.truthy.
  rewrite Henv. by do 2 case_bool_decide.
Qed.

Lemma service_generate_duplicate g request_class response_class w w' :
  ServiceGenerator.generate g request_class response_class w
  = (Raised (ServiceGenerator.duplicate g), w') →
  mkdir (ServiceGenerator.service_dir g) w = (Ok tt, w').
Proof.
  unfold ServiceGenerator.generate.
  destruct (mkdir (ServiceGenerator.service_dir g) w) as [[[]|e] w1] eqn:Hmk;
    erewrite bind_run by done; cbv beta iota.
  2:{ intros. simplify_eq. apply mkdir_error in Hmk as [k Hk].
      symmetry in Hk. by apply os_error_not_service_duplicate in Hk. }
  erewrite bind_run by reflexivity; cbv beta iota.
  destruct (path_exists _ _); [by unfold raise; intros; simplify_eq|].
  destruct (ServiceGenerator._get_template_content g request_class response_class w1)
    as [[content|e] w2] eqn:Ht; erewrite bind_run by done; cbv beta iota.
  - intros Hw. apply write_text_error in Hw as [k Hk].
    symmetry in Hk. by apply os_error_not_service_duplicate in Hk.
  - apply get_template_content_inv in Ht as [_ Hkind]. intros. by simplify_eq.
Qed.

Lemma service_duplicate_rejected_witness :
  let w := World invoice_disk [] in
  let g := ServiceGenerator.make sample_env billing
             (ServiceConfig.mk "invoice" "billing" "application" false) in
  ServiceGenerator.generate g "" "" w = (Raised (ServiceGenerator.duplicate g), w)
  ∧ kind (ServiceGenerator.duplicate g) = FileExistsError.
Proof.
  apply (service_duplicate_rejected sample_env billing
           (ServiceConfig.mk "invoice" "billing" "application" false) "" ""
           (World invoice_disk [])).
  - apply wf_check. vm_compute. reflexivity.
  - reflexivity.
  - reflexivity.
Defined.

Lemma dto_emit_checks_then_writes_witness :
  let g := DTOGenerator.make billing "checkout" "domain" in
  DTOGenerator.generate g (World response_only_disk [])
  = (Raised (DTOGenerator.duplicate g), World response_only_disk [])
  ∧ (∃ d',
       DTOGenerator.generate g (World modules_disk [])
       = (Ok ("CheckoutRequestDto", "CheckoutResponseDto"), World d' [])
       ∧ files d' = [ billing ++ ["dtos"; "checkout"; "checkout_request_dto.py"];
                      billing ++ ["dtos"; "checkout"; "checkout_response_dto.py"];
                      billing ++ ["dtos"; "checkout"; "__init__.py"] ])
  ∧ (∃ d',
       DTOGenerator.generate g (World stale_init_disk [])
       = (Ok ("CheckoutRequestDto", "CheckoutResponseDto"), World d' [])
       ∧ stat d' (DTOGenerator.init_file g) = Some (File (DTOGenerator.init_content g))
       ∧ files d' = [ billing ++ ["dtos"; "checkout"; "__init__.py"];
                      billing ++ ["dtos"; "checkout"; "checkout_request_dto.py"];
                      billing ++ ["dtos"; "checkout"; "checkout_response_dto.py"] ]).
Proof.
  intros g. split_and!.
  - assert (wf response_only_disk) as Hwf
      by (apply wf_check; vm_compute; reflexivity).
    destruct (dto_emit_checks_then_writes billing "checkout" "domain"
                (World response_only_disk []) Hwf eq_refl eq_refl) as [Hfail _].
    apply Hfail. reflexivity.
  - assert (wf modules_disk) as Hwf
      by (apply wf_check; vm_compute; reflexivity).
    destruct (dto_emit_checks_then_writes billing "checkout" "domain"
                (World modules_disk []) Hwf eq_refl eq_refl) as [_ Hok].
    destruct (Hok eq_refl eq_refl eq_refl eq_refl)
      as (d' & Hrun & _ & _ & _ & _ & Hfiles & _).
    exists d'. split; [exact Hrun | exact (Hfiles eq_refl)].
  - assert (wf stale_init_disk) as Hwf
      by (apply wf_check; vm_compute; reflexivity).
    destruct (dto_emit_checks_then_writes billing "checkout" "domain"
                (World stale_init_disk []) Hwf eq_refl eq_refl) as [_ Hok].
    destruct (Hok eq_refl eq_refl eq_refl eq_refl)
      as (d' & Hrun & _ & _ & Hinit & _ & _ & Hfiles).
    exists d'. split_and!; [exact Hrun | exact Hinit | exact (Hfiles eq_refl)].
Defined.

(** C3, as stated, fails: a successful run does not always create three
    files.  With an [__init__.py] in the DTO directory and neither DTO, the
    check passes, the run succeeds and the disk has two more regular files
    than before, the re-export file being one of the former. *)
Theorem dto_emit_creates_three_files_fails : ¬ dto_emit_creates_three_files.
Proof.
  intros Hthree.
  assert (wf stale_init_disk) as Hwf by (apply wf_check; vm_compute; reflexivity).
  destruct (DTOGenerator.generate (DTOGenerator.make billing "checkout" "domain")
              (World stale_init_disk [])) as [[classes|e] w'] eqn:Hrun;
    [|by vm_compute in Hrun].
  pose proof (Hthree billing "checkout" "domain" (World stale_init_disk []) classes w'
                Hwf Hrun) as Hcount.
  vm_compute in Hrun. injection Hrun as _ <-. by vm_compute in Hcount.
Qed.

(** A run of [DTOGenerator.generate] stops at its own check exactly when
    [mkdir] has succeeded and a target is there on the disk [mkdir] left. *)
Lemma dto_generate_duplicate_iff g w w' :
  DTOGenerator.generate g w = (Raised (DTOGenerator.duplicate g), w')
  ↔ mkdir (DTOGenerator.dtos_dir g) w = (Ok tt, w')
    ∧ path_exists (disk w') (DTOGenerator.request_file g)
      || path_exists (disk w') (DTOGenerator.response_file g) = true.
Proof.
  split.
  - intros Hrun. pose proof (dto_generate_duplicate _ _ _ Hrun) as Hmk.
    split; [done|]. revert Hrun. unfold DTOGenerator.generate.
    erewrite bind_run by exact Hmk; cbv beta iota.
    erewrite bind_run by reflexivity; cbv beta iota.
    destruct (path_exists (disk w') (DTOGenerator.request_file g)); [done|].
    erewrite bind_run by reflexivity; cbv beta iota.
    destruct (path_exists (disk w') (DTOGenerator.response_file g)); [done|].
    destruct (write_text (DTOGenerator.request_file g) (DTOGenerator.request_stub g) w')
      as [[[]|e] w2] eqn:Hw1; erewrite bind_run by done; cbv beta iota.
    2:{ intros. simplify_eq. apply write_text_error in Hw1 as [k Hk].
        symmetry in Hk. by apply os_error_not_dto_duplicate in Hk. }
    destruct (write_text (DTOGenerator.response_file g) (DTOGenerator.response_stub g) w2)
      as [[[]|e] w3] eqn:Hw2; erewrite bind_run by done; cbv beta iota.
    2:{ intros. simplify_eq. apply write_text_error in Hw2 as [k Hk].
        symmetry in Hk. by apply os_error_not_dto_duplicate in Hk. }
    destruct (write_text (DTOGenerator.init_file g) (DTOGenerator.init_content g) w3)
      as [[[]|e] w4] eqn:Hw3; erewrite bind_run by done; cbv beta iota.
    2:{ intros. simplify_eq. apply write_text_error in Hw3 as [k Hk].
        symmetry in Hk. by apply os_error_not_dto_duplicate in Hk. }
    done.
  - intros [Hmk Hex]. unfold DTOGenerator.generate.
    erewrite bind_run by exact Hmk; cbv beta iota.
    erewrite bind_run by reflexivity; cbv beta iota.
    destruct (path_exists (disk w') (DTOGenerator.request_file g)).
    + by erewrite bind_run by reflexivity.
    + erewrite bind_run by reflexivity; cbv beta iota. cbn [orb] in Hex. by rewrite Hex.
Qed.

(** The same for [ServiceGenerator.generate] and the service file. *)
Lemma service_generate_duplicate_iff g request_class response_class w w' :
  ServiceGenerator.generate g request_class response_class w
  = (Raised (ServiceGenerator.duplicate g), w')
  ↔ mkdir (ServiceGenerator.service_dir g) w = (Ok tt, w')
    ∧ path_exists (disk w') (ServiceGenerator.service_file g) = true.
Proof.
  split.
  - intros Hrun. pose proof (service_generate_duplicate _ _ _ _ _ Hrun) as Hmk.
    split; [done|]. revert Hrun. unfold ServiceGenerator.generate.
    erewrite bind_run by exact Hmk; cbv beta iota.
    erewrite bind_run by reflexivity; cbv beta iota.
    fold (ServiceGenerator.service_file g).
    destruct (path_exists (disk w') (ServiceGenerator.service_file g)); [done|].
    destruct (ServiceGenerator._get_template_content g request_class response_class w')
      as [[content|e] w2] eqn:Ht; erewrite bind_run by done; cbv beta iota.
    + intros Hw. apply write_text_error in Hw as [k Hk].
      symmetry in Hk. by apply os_error_not_service_duplicate in Hk.
    + apply get_template_content_inv in Ht as [_ Hkind]. intros. by simplify_eq.
  - intros [Hmk Hex]. unfold ServiceGenerator.generate.
    erewrite bind_run by exact Hmk; cbv beta iota.
    erewrite bind_run by reflexivity; cbv beta iota.
    fold (ServiceGenerator.service_file g). by rewrite Hex.
Qed.

(** C10.  Both generators make their directory, parents included, before
    they look for the files.  A run of [DTOGenerator.generate] or
    [ServiceGenerator.generate] stops with the [FileExistsError] of its own
    check exactly when [mkdir] of the DTO directory or of the service
    directory has succeeded and the file looked for is on the disk [mkdir]
    left; the world the run ends in is the one [mkdir] made, so the
    directory is a directory of the resulting disk.  Such a run can leave a
    new, empty directory behind, with either generator: with the service
    name [/x] the files looked for are [/x_request_dto.py] and
    [/x_service.py], outside the directory, and a run stopped by one of them
    has made a directory that was not there. *)
Theorem directory_made_before_check :
  (∀ module_path name type w w',
     let g := DTOGenerator.make module_path name type in
     (DTOGenerator.generate g w = (Raised (DTOGenerator.duplicate g), w')
      ↔ mkdir (DTOGenerator.dtos_dir g) w = (Ok tt, w')
        ∧ path_exists (disk w') (DTOGenerator.request_file g)
          || path_exists (disk w') (DTOGenerator.response_file g) = true)
     ∧ (DTOGenerator.generate g w = (Raised (DTOGenerator.duplicate g), w') →
        is_dir (disk w') (DTOGenerator.dtos_dir g) = true))
  ∧ (∀ env module_path config request_class response_class w w',
       let g := ServiceGenerator.make env module_path config in
       (ServiceGenerator.generate g request_class response_class w
        = (Raised (ServiceGenerator.duplicate g), w')
        ↔ mkdir (ServiceGenerator.service_dir g) w = (Ok tt, w')
          ∧ path_exists (disk w') (ServiceGenerator.service_file g) = true)
       ∧ (ServiceGenerator.generate g request_class response_class w
          = (Raised (ServiceGenerator.duplicate g), w') →
          is_dir (disk w') (ServiceGenerator.service_dir g) = true))
  ∧ (∃ w',
       let w := World stray_dto_disk [] in
       let g := DTOGenerator.make billing "/x" "domain" in
       DTOGenerator.generate g w = (Raised (DTOGenerator.duplicate g), w')
       ∧ path_exists (disk w) (DTOGenerator.dtos_dir g) = false
       ∧ is_dir (disk w') (DTOGenerator.dtos_dir g) = true
       ∧ children (disk w') (DTOGenerator.dtos_dir g) = [])
  ∧ (∃ w',
       let w := World stray_disk [] in
       let g := ServiceGenerator.make sample_env billing
                  (ServiceConfig.mk "/x" "billing" "domain" false) in
       ServiceGenerator.generate g "" "" w = (Raised (ServiceGenerator.duplicate g), w')
       ∧ path_exists (disk w) (ServiceGenerator.service_dir g) = false
       ∧ is_dir (disk w') (ServiceGenerator.service_dir g) = true
       ∧ children (disk w') (ServiceGenerator.service_dir g) = []).
Proof.
  split_and!.
  - intros module_path name type w w' g. split; [apply dto_generate_duplicate_iff|].
    intros Hrun. by eapply mkdir_ok_is_dir, dto_generate_duplicate.
  - intros env module_path config request_class response_class w w' g.
    split; [apply service_generate_duplicate_iff|].
    intros Hrun. by eapply mkdir_ok_is_dir, service_generate_duplicate.
  - eexists. vm_compute. split_and!; reflexivity.
  - eexists. vm_compute. split_and!; reflexivity.
Qed.

Lemma directory_made_before_check_witness :
  let g := DTOGenerator.make billing "/x" "domain" in
  let w := World stray_dto_disk [] in
  let w' := World (stray_dto_disk ++ [(["/"; "x"], Dir)]) [] in
  DTOGenerator.dtos_dir g = ["/"; "x"]
  ∧ path_exists (disk w) (DTOGenerator.dtos_dir g) = false
  ∧ mkdir (DTOGenerator.dtos_dir g) w = (Ok tt, w')
  ∧ is_dir (disk w') (DTOGenerator.dtos_dir g) = true.
Proof.
  intros g w w'.
  destruct (proj1 directory_made_before_check billing "/x" "domain" w w') as [Hiff Hdir].
  assert (DTOGenerator.generate g w = (Raised (DTOGenerator.duplicate g), w')) as Hrun
    by (vm_compute; reflexivity).
  split_and!; [reflexivity | reflexivity | exact (proj1 (proj1 Hiff Hrun)) | exact (Hdir Hrun)].
Defined.

(** The [FileExistsError] of [mkdir] is another exception: when the DTO
    directory is a regular file the run stops in [mkdir], with the message
    of the system, and there is no such directory afterwards. *)
Remark mkdir_stopped_by_a_file :
  let d := modules_disk ++ [(billing ++ ["dtos"], Dir);
                            (billing ++ ["dtos"; "checkout"], File "")] in
  let g := DTOGenerator.make billing "checkout" "domain" in
  DTOGenerator.dtos_dir g = billing ++ ["dtos"; "checkout"]
  ∧ DTOGenerator.generate g (World d [])
    = (Raised (Exn FileExistsError
                 "[Errno 17] File exists: 'src/modules/billing/dtos/checkout'"),
       World d [])
  ∧ is_dir d (DTOGenerator.dtos_dir g) = false.
Proof. by vm_compute. Qed.


(** A successful [DTOGenerator.generate] leaves its three files, with their
    contents, on the disk. *)
Lemma dto_generate_ok g w classes w' :
  DTOGenerator.generate g w = (Ok classes, w') →
  stat (disk w') (DTOGenerator.request_file g) = Some (File (DTOGenerator.request_stub g))
  ∧ stat (disk w') (DTOGenerator.response_file g) = Some (File (DTOGenerator.response_stub g))
  ∧ stat (disk w') (DTOGenerator.init_file g) = Some (File (DTOGenerator.init_content g)).
Proof.
  destruct (dto_files_distinct g) as (Hne1 & Hne2 & Hne3).
  unfold DTOGenerator.generate.
  destruct (mkdir (DTOGenerator.dtos_dir g) w) as [[[]|e] w1] eqn:Hmk;
    erewrite bind_run by done; cbv beta iota; [|done].
  erewrite bind_run by reflexivity; cbv beta iota.
  destruct (path_exists (disk w1) (DTOGenerator.request_file g)).
  { by erewrite bind_run by reflexivity. }
  erewrite bind_run by reflexivity; cbv beta iota.
  destruct (path_exists (disk w1) (DTOGenerator.response_file g)); [done|].
  destruct (write_text (DTOGenerator.request_file g) (DTOGenerator.request_stub g) w1)
    as [[[]|e] w2] eqn:Hw1; erewrite bind_run by done; cbv beta iota; [|done].
  destruct (write_text (DTOGenerator.response_file g) (DTOGenerator.response_stub g) w2)
    as [[[]|e] w3] eqn:Hw2; erewrite bind_run by done; cbv beta iota; [|done].
  destruct (write_text (DTOGenerator.init_file g) (DTOGenerator.init_content g) w3)
    as [[[]|e] w4] eqn:Hw3; erewrite bind_run by done; cbv beta iota; [|done].
  apply write_text_inv in Hw1 as [Hd1 ->], Hw2 as [Hd2 ->], Hw3 as [Hd3 ->].
  apply stat_not_dir_not_anchor in Hd1, Hd2, Hd3.
  intros [= _ <-]. cbn [disk]. split_and!.
  - by rewrite !stat_store_ne, stat_store_eq by done.
  - by rewrite stat_store_ne, stat_store_eq by done.
  - by rewrite stat_store_eq by done.
Qed.






(** ** The catalog of modules *)

Lemma child_name e p :
  Path.is_anchor e = false → removelast e = p → e = p ++ [Path.name e].
Proof.
  intros Ha <-. unfold Path.name. rewrite Ha.
  apply app_removelast_last. by intros ->.
Qed.

Lemma children_elem_of d p e :
  e ∈ children d p ↔ e ∈ d.*1 ∧ Path.is_anchor e = false ∧ removelast e = p.
Proof. unfold children. rewrite list_elem_of_filter. tauto. Qed.

Lemma lookup_path_is_Some d p : p ∈ d.*1 → ∃ n, lookup_path d p = Some n.
Proof.
  induction d as [|[q m] d IH]; cbn [lookup_path]; [by intros ?%elem_of_nil|].
  rewrite fmap_cons, elem_of_cons. intros [->|Hp]; cbn [fst].
  - exists m. by rewrite decide_True.
  - case_decide; eauto.
Qed.

(** The directories of the catalog are the directory entries directly
    below the root, whatever their name. *)
Lemma child_is_dir d p e :
  e ∈ children d p → is_dir d e = true → lookup_path d (p ++ [Path.name e]) = Some Dir.
Proof.
  intros (_ & Ha & Hup)%children_elem_of Hdir. rewrite <-(child_name e p Ha Hup).
  unfold is_dir, stat in Hdir. rewrite Ha in Hdir.
  by destruct (lookup_path d e) as [[?|]|].
Qed.

Lemma get_available_modules_run self w :
  is_dir (disk w) (ModuleManager.base_path self) = true →
  ModuleManager.get_available_modules self w =
    match Path.name <$>
            filter (λ e, is_dir (disk w) e = true ∧ Path.name e ≠ "shared")
                   (children (disk w) (ModuleManager.base_path self)) with
    | [] => (Raised (Exn FileNotFoundError "❌ Nenhum módulo encontrado em src/modules"), w)
    | m :: ms => (Ok (m :: ms), w)
    end.
Proof.
  intros Hdir. unfold ModuleManager.get_available_modules.
  unfold is_dir in Hdir.
  destruct (stat (disk w) (ModuleManager.base_path self)) as [[?|]|] eqn:Hst; [done| |done].
  erewrite bind_run by reflexivity; cbv beta iota.
  unfold path_exists. rewrite Hst. cbn [negb].
  erewrite bind_run; last first.
  { unfold iterdir. by rewrite Hst. }
  cbv beta iota. erewrite bind_run by reflexivity; cbv beta iota zeta. cbn [disk].
  by destruct (Path.name <$> _).
Qed.

(** C8.  On a well-formed disk whose modules root is a directory with at
    least one directory other than [shared] in it, [get_available_modules]
    returns, in enumeration order and without repetition, exactly the names
    of the directories directly below the root other than [shared]; a root
    with billing, shared and inventory gives [billing; inventory]. *)
Theorem catalog_excludes_shared :
  (∀ self w,
     wf (disk w) →
     is_dir (disk w) (ModuleManager.base_path self) = true →
     (∃ n, n ≠ "shared"
           ∧ lookup_path (disk w) (ModuleManager.base_path self ++ [n]) = Some Dir) →
     ∃ ms,
       ModuleManager.get_available_modules self w = (Ok ms, w)
       ∧ NoDup ms
       ∧ (∀ n, n ∈ ms ↔
               lookup_path (disk w) (ModuleManager.base_path self ++ [n]) = Some Dir
               ∧ n ≠ "shared")
       ∧ ms `sublist_of` (Path.name <$> children (disk w) (ModuleManager.base_path self)))
  ∧ ModuleManager.get_available_modules ModuleManager.default (World modules_disk [])
    = (Ok ["billing"; "inventory"], World modules_disk []).
Proof.
  split; [|by vm_compute].
  intros self w Hwf Hdir (n0 & Hn0 & Hlook0).
  rewrite (get_available_modules_run _ _ Hdir).
  set (base := ModuleManager.base_path self) in *.
  set (ms := Path.name <$> filter _ (children (disk w) base)).
  assert (∀ n, n ∈ ms ↔ lookup_path (disk w) (base ++ [n]) = Some Dir ∧ n ≠ "shared") as Hms.
  { intros n. unfold ms. rewrite list_elem_of_fmap. split.
    - intros (e & -> & [[Hd Hne] He]%list_elem_of_filter).
      split; [by apply child_is_dir | done].
    - intros [Hlook Hne]. exists (base ++ [n]).
      destruct (wf_lookup _ _ _ Hwf Hlook) as [Ha _].
      assert (Path.name (base ++ [n]) = n) as Hname
        by (unfold Path.name; by rewrite Ha, last_last).
      split; [done|]. apply list_elem_of_filter. split.
      + split; [|by rewrite Hname]. unfold is_dir, stat. by rewrite Ha, Hlook.
      + apply children_elem_of. split_and!; [|done|apply removelast_last].
        apply list_elem_of_fmap. exists (base ++ [n], Dir).
        split; [done|]. by apply lookup_path_elem_of. }
  assert (NoDup ms) as Hnodup.
  { unfold ms. apply NoDup_fmap_2_strong.
    - intros x y [_ (_ & Hax & Hx)%children_elem_of]%list_elem_of_filter
                 [_ (_ & Hay & Hy)%children_elem_of]%list_elem_of_filter Hxy.
      by rewrite (child_name x base Hax Hx), (child_name y base Hay Hy), Hxy.
    - apply NoDup_filter. unfold children. apply NoDup_filter. apply Hwf. }
  assert (ms `sublist_of` (Path.name <$> children (disk w) base)) as Hsub
    by (apply fmap_sublist, sublist_filter).
  destruct ms as [|m ms'] eqn:Heq.
  - exfalso. eapply elem_of_nil. apply Hms. eauto.
  - by exists (m :: ms').
Qed.

Lemma catalog_excludes_shared_witness :
  ∃ ms,
    ModuleManager.get_available_modules ModuleManager.default (World modules_disk [])
    = (Ok ms, World modules_disk [])
    ∧ NoDup ms
    ∧ (∀ n, n ∈ ms ↔
            lookup_path modules_disk (["src"; "modules"] ++ [n]) = Some Dir ∧ n ≠ "shared")
    ∧ ms `sublist_of` (Path.name <$> children modules_disk ["src"; "modules"]).
Proof.
  apply (proj1 catalog_excludes_shared ModuleManager.default (World modules_disk [])).
  - apply wf_check. vm_compute. reflexivity.
  - reflexivity.
  - exists "billing". split; [discriminate | reflexivity].
Defined.

(** C5, as the code has it.  [get_available_modules] raises
    [FileNotFoundError] when the modules root is absent, and raises
    [FileNotFoundError] again, with another message, when the root is a
    directory in which no directory other than [shared] remains: the two
    failures are of the same kind and differ by their message only. *)
Theorem catalog_failures_share_kind self w :
  let absent := Exn FileNotFoundError "❌ Diretório src/modules não encontrado" in
  let empty := Exn FileNotFoundError "❌ Nenhum módulo encontrado em src/modules" in
  (path_exists (disk w) (ModuleManager.base_path self) = false →
   ModuleManager.get_available_modules self w = (Raised absent, w))
  ∧ (is_dir (disk w) (ModuleManager.base_path self) = true →
     (∀ n, lookup_path (disk w) (ModuleManager.base_path self ++ [n]) = Some Dir →
           n = "shared") →
     ModuleManager.get_available_modules self w = (Raised empty, w))
  ∧ kind absent = kind empty
  ∧ message absent ≠ message empty.
Proof.
  intros absent empty. split_and!; [| |done|done].
  - intros Hno. unfold ModuleManager.get_available_modules.
    erewrite bind_run by reflexivity; cbv beta iota. by rewrite Hno.
  - intros Hdir Hnone. rewrite (get_available_modules_run _ _ Hdir).
    destruct (filter _ _) as [|e es] eqn:Hf; [done|].
    assert (e ∈ filter (λ e, is_dir (disk w) e = true ∧ Path.name e ≠ "shared")
                  (children (disk w) (ModuleManager.base_path self))) as He
      by (rewrite Hf; left).
    apply list_elem_of_filter in He as [[Hd Hne] He]. destruct Hne.
    apply Hnone. by apply child_is_dir.
Qed.

Lemma catalog_failures_share_kind_witness :
  ModuleManager.get_available_modules ModuleManager.default (World [] [])
  = (Raised (Exn FileNotFoundError "❌ Diretório src/modules não encontrado"), World [] [])
  ∧ ModuleManager.get_available_modules ModuleManager.default (World shared_only_disk [])
    = (Raised (Exn FileNotFoundError "❌ Nenhum módulo encontrado em src/modules"),
       World shared_only_disk []).
Proof.
  split.
  - apply (catalog_failures_share_kind ModuleManager.default (World [] [])). reflexivity.
  - apply (catalog_failures_share_kind ModuleManager.default (World shared_only_disk []));
      [reflexivity|].
    intros n. change (ModuleManager.base_path ModuleManager.default) with ["src"; "modules"].
    cbn [disk shared_only_disk lookup_path app].
    repeat case_decide; intros; by simplify_eq.
Defined.

(** C5, as stated, fails: with the root absent and with a root that holds
    the shared bucket only, the two exceptions are of one kind. *)
Lemma catalog_error_kinds_differ_fails : ¬ catalog_error_kinds_differ.
Proof.
  intros Hdiffer.
  apply (Hdiffer ModuleManager.default (World [] []) (World shared_only_disk [])
           (Exn FileNotFoundError "❌ Diretório src/modules não encontrado")
           (Exn FileNotFoundError "❌ Nenhum módulo encontrado em src/modules")
           (World [] []) (World shared_only_disk []));
    reflexivity.
Qed.

(** ** Names *)

Lemma snake_char_not_upper c :
  Str.is_lower c || Str.is_digit c || Ascii.eqb c "_" = true → Str.is_upper c = false.
Proof. by destruct c as [[] [] [] [] [] [] [] []]. Qed.

Lemma lower_no_upper w : no_upper w = true → Str.lower w = w.
Proof.
  induction w as [|c w IH]; cbn [no_upper Str.lower]; [done|].
  intros [Hc Hw]%andb_true_iff. apply negb_true_iff in Hc.
  unfold Str.lower_char. by rewrite Hc, (IH Hw).
Qed.

Lemma capitalize_no_upper w : no_upper w = true → Str.capitalize w = capitalize_first w.
Proof.
  destruct w as [|c w]; cbn [no_upper Str.capitalize capitalize_first]; [done|].
  intros [_ Hw]%andb_true_iff. by rewrite (lower_no_upper _ Hw).
Qed.

Lemma split_no_upper s :
  valid_snake s = true → Forall (λ w, no_upper w = true) (Str.split "_" s).
Proof.
  induction s as [|c s IH]; cbn [valid_snake Str.split].
  - by repeat constructor.
  - intros [Hc Hs]%andb_true_iff. specialize (IH Hs).
    apply snake_char_not_upper in Hc.
    destruct (Ascii.eqb c "_"); [by constructor|].
    destruct (Str.split "_" s) as [|w ws].
    + constructor; [|done]. cbn [no_upper]. by rewrite Hc.
    + apply Forall_cons in IH as [Hw Hws]. constructor; [|done].
      cbn [no_upper]. by rewrite Hc, Hw.
Qed.

(** C9.  On snake-case text [toPascal] is what the specification says:
    split on underscore, capitalize the first letter of each token,
    concatenate.  [user_profile] gives [UserProfile], and a service [foo_bar]
    gets the class names [FooBarRequestDto], [FooBarResponseDto] and
    [FooBarService]. *)
Theorem toPascal_on_snake_case :
  (∀ s, valid_snake s = true → toPascal s = toPascal_spec s)
  ∧ toPascal "user_profile" = "UserProfile"
  ∧ (∀ module_path type,
       DTOGenerator.request_class_name (DTOGenerator.make module_path "foo_bar" type)
       = "FooBarRequestDto"
       ∧ DTOGenerator.response_class_name (DTOGenerator.make module_path "foo_bar" type)
         = "FooBarResponseDto")
  ∧ (∀ env module_path module type create_dtos,
       ServiceGenerator.service_class_name
         (ServiceGenerator.make env module_path
            (ServiceConfig.mk "foo_bar" module type create_dtos))
       = "FooBarService").
Proof.
  split_and!; [|done..].
  intros s Hs. unfold toPascal, toPascal_spec. f_equal.
  induction (split_no_upper s Hs) as [|w ws Hw _ IH]; [done|].
  cbn [map]. by rewrite IH, (capitalize_no_upper _ Hw).
Qed.

Lemma toPascal_on_snake_case_witness :
  toPascal "user_profile" = toPascal_spec "user_profile"
  ∧ toPascal_spec "user_profile" = "UserProfile".
Proof.
  split; [|reflexivity].
  apply (proj1 toPascal_on_snake_case "user_profile"). reflexivity.
Defined.

(** C1, on the code.  The template is the one of [config.type], and an
    empty class name is rendered as [None]; the service name handed to the
    template is the class name with every [Service] removed, not with its
    suffix stripped: for the service [service_desk] the class is
    [ServiceDeskService], its name without the suffix is [ServiceDesk], and
    the template receives [Desk]. *)
Theorem base_name_drops_every_Service :
  (∀ env template module_path config request_class response_class w,
     env (ServiceConfig.type config +:+ "_service.j2") = Some template →
     ServiceGenerator._get_template_content
       (ServiceGenerator.make env module_path config) request_class response_class w
     = (Ok (template
              (Str.replace "Service" "" (toPascal (ServiceConfig.name config) +:+ "Service"))
              (if bool_decide (request_class = "") then "None" else request_class)
              (if bool_decide (response_class = "") then "None" else response_class)),
        w))
  ∧ (∀ env template module_path w,
       env "domain_service.j2" = Some template →
       let g := ServiceGenerator.make env module_path
                  (ServiceConfig.mk "service_desk" "billing" "domain" false) in
       ServiceGenerator.service_class_name g = "ServiceDeskService"
       ∧ removesuffix "Service" (ServiceGenerator.service_class_name g) = "ServiceDesk"
       ∧ ServiceGenerator._get_template_content g "" "" w
         = (Ok (template "Desk" "None" "None"), w)).
Proof.
  split.
  - intros env template module_path config request_class response_class w Henv.
    by apply get_template_content_run.
  - intros env template module_path w Henv g. split_and!; [reflexivity..|].
    by apply (get_template_content_run g template "" "" w).
Qed.

Lemma base_name_drops_every_Service_witness :
  ServiceGenerator._get_template_content
    (ServiceGenerator.make sample_env billing
       (ServiceConfig.mk "service_desk" "billing" "domain" false)) "" "" (World [] [])
  = (Ok (sample_template "domain_service.j2" "Desk" "None" "None"), World [] []).
Proof.
  apply (proj2 base_name_drops_every_Service sample_env
           (sample_template "domain_service.j2") billing (World [] []) eq_refl).
Defined.

(** C2, on the code.  For a shared service the DTO directory is
    [services/<name>/dtos] with the name in lower case; for the other layers
    it is [dtos/<name>] with the name as it was typed, so [Checkout] and
    [checkout] get two DTO directories, while the files in them and the
    import of the service use the lower-case name. *)
Theorem dtos_dir_keeps_the_case :
  let typed := DTOGenerator.make billing "Checkout" "domain" in
  let lowered := DTOGenerator.make billing "checkout" "domain" in
  DTOGenerator.dtos_dir typed = billing ++ ["dtos"; "Checkout"]
  ∧ DTOGenerator.dtos_dir lowered = billing ++ ["dtos"; "checkout"]
  ∧ DTOGenerator.dtos_dir typed ≠ DTOGenerator.dtos_dir lowered
  ∧ DTOGenerator.request_file typed
    = billing ++ ["dtos"; "Checkout"; "checkout_request_dto.py"]
  ∧ dto_package (ServiceConfig.mk "Checkout" "billing" "domain" true)
    = "src.modules.billing.dtos.checkout"
  ∧ (∀ module_path name,
       Str.startswith "/" name = false →
       DTOGenerator.dtos_dir (DTOGenerator.make module_path name "shared")
       = module_path ++ ["services"] ++ Path.segments (Str.lower name) ++ ["dtos"])
  ∧ DTOGenerator.dtos_dir (DTOGenerator.make ["src"; "modules"; "shared"] "Checkout" "shared")
    = ["src"; "modules"; "shared"; "services"; "checkout"; "dtos"].
Proof.
  intros typed lowered. split_and!; try reflexivity; [done|].
  intros module_path name Hrel.
  cbn [DTOGenerator.make DTOGenerator.dtos_dir]. rewrite bool_decide_eq_true_2 by done.
  assert (Str.startswith "/" (Str.lower name) = false) as Hlow.
  { destruct name as [|c name]; [done|]. cbn [Str.lower].
    rewrite startswith_slash_cons in *. by rewrite lower_char_slash. }
  change (module_path // "services") with (module_path ++ ["services"]).
  rewrite (joinpath_relative _ _ Hlow).
  change (?p // "dtos") with (p ++ ["dtos"]). by rewrite <-!app_assoc.
Qed.

Lemma dtos_dir_keeps_the_case_witness :
  DTOGenerator.dtos_dir (DTOGenerator.make billing "Checkout" "shared")
  = billing ++ ["services"] ++ ["checkout"] ++ ["dtos"].
Proof.
  exact (proj1 (proj2 (proj2 (proj2 (proj2 (proj2 dtos_dir_keeps_the_case)))))
           billing "Checkout" eq_refl).
Defined.

(** * Further properties of the code *)

(** ** Class names *)

Lemma upper_lower_char c : Str.upper_char (Str.lower_char c) = Str.upper_char c.
Proof. by destruct c as [[] [] [] [] [] [] [] []]. Qed.

Lemma lower_lower_char c : Str.lower_char (Str.lower_char c) = Str.lower_char c.
Proof. by destruct c as [[] [] [] [] [] [] [] []]. Qed.

Lemma lower_char_underscore c : Ascii.eqb (Str.lower_char c) "_" = Ascii.eqb c "_".
Proof. by destruct c as [[] [] [] [] [] [] [] []]. Qed.

Lemma upper_char_underscore c : Ascii.eqb (Str.upper_char c) "_" = Ascii.eqb c "_".
Proof. by destruct c as [[] [] [] [] [] [] [] []]. Qed.

Lemma lower_idemp s : Str.lower (Str.lower s) = Str.lower s.
Proof.
  induction s as [|c s IH]; cbn [Str.lower]; [done|].
  by rewrite lower_lower_char, IH.
Qed.

Lemma lower_append s t : Str.lower (s +:+ t) = Str.lower s +:+ Str.lower t.
Proof. induction s as [|c s IH]; cbn [Str.lower String.append]; [done | by rewrite IH]. Qed.

Lemma capitalize_lower w : Str.capitalize (Str.lower w) = Str.capitalize w.
Proof.
  destruct w as [|c w]; cbn [Str.lower Str.capitalize]; [done|].
  by rewrite upper_lower_char, lower_idemp.
Qed.

Lemma split_not_nil sep s : Str.split sep s ≠ [].
Proof.
  destruct s as [|c s]; cbn [Str.split]; [done|].
  destruct (Ascii.eqb c sep); [done|]. by destruct (Str.split sep s).
Qed.

Lemma split_lower s : Str.split "_" (Str.lower s) = map Str.lower (Str.split "_" s).
Proof.
  induction s as [|c s IH]; cbn [Str.lower Str.split]; [done|].
  rewrite lower_char_underscore, IH.
  destruct (Ascii.eqb c "_"); [done|].
  pose proof (split_not_nil "_" s). by destruct (Str.split "_" s).
Qed.

Lemma toPascal_lower s : toPascal (Str.lower s) = toPascal s.
Proof.
  unfold toPascal. rewrite split_lower, map_map. f_equal.
  apply map_ext. intros w. apply capitalize_lower.
Qed.

(** X1.  For ASCII names the class names do not depend on the case of the
    letters typed: two service names of ASCII text with the same lower-case
    form get the same request, response and service class names.  (Outside
    ASCII, Python has letters with one lower-case form and different
    capitalized forms; the statement is not made for them.) *)
Theorem class_names_ignore_case a b :
  ascii_text a = true → ascii_text b = true →
  Str.lower a = Str.lower b →
  toPascal a = toPascal b
  ∧ (∀ module_path type,
       DTOGenerator.request_class_name (DTOGenerator.make module_path a type)
       = DTOGenerator.request_class_name (DTOGenerator.make module_path b type)
       ∧ DTOGenerator.response_class_name (DTOGenerator.make module_path a type)
         = DTOGenerator.response_class_name (DTOGenerator.make module_path b type))
  ∧ (∀ env module_path module type create_dtos,
       ServiceGenerator.service_class_name
         (ServiceGenerator.make env module_path (ServiceConfig.mk a module type create_dtos))
       = ServiceGenerator.service_class_name
           (ServiceGenerator.make env module_path (ServiceConfig.mk b module type create_dtos))).
Proof.
  intros _ _ Hab.
  assert (∀ t, toPascal (a +:+ t) = toPascal (b +:+ t)) as Hsame.
  { intros t. rewrite <-(toPascal_lower (a +:+ t)), <-(toPascal_lower (b +:+ t)).
    by rewrite !lower_append, Hab. }
  assert (toPascal a = toPascal b) as Hpascal
    by (by rewrite <-(toPascal_lower a), <-(toPascal_lower b), Hab).
  split_and!; [done| |].
  - intros module_path type. cbn [DTOGenerator.make DTOGenerator.request_class_name
                                  DTOGenerator.response_class_name]. by rewrite !Hsame.
  - intros env module_path module type create_dtos.
    cbn [ServiceGenerator.make ServiceGenerator.service_class_name ServiceConfig.name].
    by rewrite Hpascal.
Qed.

Lemma class_names_ignore_case_witness :
  toPascal "Check_OUT" = toPascal "check_out" ∧ toPascal "check_out" = "CheckOut".
Proof.
  split; [|reflexivity].
  apply (class_names_ignore_case "Check_OUT" "check_out"); reflexivity.
Defined.

Lemma split_pieces_free sep s : Forall (λ w, free_of sep w = true) (Str.split sep s).
Proof.
  induction s as [|c s IH]; cbn [Str.split]; [by repeat constructor|].
  destruct (Ascii.eqb c sep) eqn:Hc; [by constructor|].
  destruct (Str.split sep s) as [|w ws].
  - constructor; [|done]. cbn [free_of]. by rewrite Hc.
  - apply Forall_cons in IH as [Hw Hws]. constructor; [|done].
    cbn [free_of]. by rewrite Hc, Hw.
Qed.

Lemma free_of_append c s t : free_of c (s +:+ t) = free_of c s && free_of c t.
Proof.
  induction s as [|x s IH]; cbn [free_of String.append]; [done|].
  by rewrite IH, andb_assoc.
Qed.

Lemma free_of_underscore_lower w : free_of "_" (Str.lower w) = free_of "_" w.
Proof.
  induction w as [|c w IH]; cbn [free_of Str.lower]; [done|].
  by rewrite lower_char_underscore, IH.
Qed.

Lemma free_of_underscore_capitalize w : free_of "_" (Str.capitalize w) = free_of "_" w.
Proof.
  destruct w as [|c w]; cbn [free_of Str.capitalize]; [done|].
  by rewrite upper_char_underscore, free_of_underscore_lower.
Qed.

(** X2.  A class name never has an underscore, whatever the service name:
    [toPascal] removes every underscore of its argument and adds none. *)
Theorem toPascal_has_no_underscore s : free_of "_" (toPascal s) = true.
Proof.
  unfold toPascal. induction (split_pieces_free "_" s) as [|w ws Hw _ IH]; [done|].
  cbn [map Str.join foldr]. rewrite free_of_append, free_of_underscore_capitalize, Hw.
  exact IH.
Qed.

Lemma split_app_sep sep s t :
  Str.split sep (s +:+ String sep t) = Str.split sep s ++ Str.split sep t.
Proof.
  induction s as [|c s IH]; cbn [Str.split String.append app].
  - by rewrite Ascii.eqb_refl.
  - rewrite IH. destruct (Ascii.eqb c sep); [done|].
    pose proof (split_not_nil sep s). by destruct (Str.split sep s).
Qed.

Lemma join_app ws1 ws2 : Str.join (ws1 ++ ws2) = Str.join ws1 +:+ Str.join ws2.
Proof.
  unfold Str.join. induction ws1 as [|w ws1 IH]; cbn [foldr app]; [done|].
  by rewrite IH, append_assoc.
Qed.

Lemma toPascal_underscore s t : toPascal (s +:+ String "_" t) = toPascal s +:+ toPascal t.
Proof. unfold toPascal. by rewrite split_app_sep, map_app, join_app. Qed.

(** X3.  The three class names of a service share their stem: for every
    service name the request class is the PascalCase name followed by
    [RequestDto], the response class the same name followed by
    [ResponseDto], and the service class the same name followed by
    [Service]. *)
Theorem class_names_share_stem env module_path config :
  let dto := DTOGenerator.make module_path (ServiceConfig.name config)
               (ServiceConfig.type config) in
  let svc := ServiceGenerator.make env module_path config in
  let stem := toPascal (ServiceConfig.name config) in
  DTOGenerator.request_class_name dto = stem +:+ "RequestDto"
  ∧ DTOGenerator.response_class_name dto = stem +:+ "ResponseDto"
  ∧ ServiceGenerator.service_class_name svc = stem +:+ "Service".
Proof.
  intros dto svc stem. split_and!; [| |done].
  - apply (toPascal_underscore (ServiceConfig.name config) "request_dto").
  - apply (toPascal_underscore (ServiceConfig.name config) "response_dto").
Qed.

(** ** The service name handed to the template *)

(** The suffix [Service] cannot begin in the last six characters of a
    text and end in an appended [Service]: no proper suffix of the word is
    a prefix of it. *)
Lemma no_Service_across c x :
  String.prefix "Service" (String c x) = false →
  String.prefix "Service" (String c x +:+ "Service") = false.
Proof.
  cbn [String.append String.prefix].
  destruct (ascii_dec "S" c) as [_|]; [|done].
  destruct x as [|c1 x]; cbn [String.append String.prefix]; [done|].
  destruct (ascii_dec "e" c1) as [_|]; [|done].
  destruct x as [|c2 x]; cbn [String.append String.prefix]; [done|].
  destruct (ascii_dec "r" c2) as [_|]; [|done].
  destruct x as [|c3 x]; cbn [String.append String.prefix]; [done|].
  destruct (ascii_dec "v" c3) as [_|]; [|done].
  destruct x as [|c4 x]; cbn [String.append String.prefix]; [done|].
  destruct (ascii_dec "i" c4) as [_|]; [|done].
  destruct x as [|c5 x]; cbn [String.append String.prefix]; [done|].
  destruct (ascii_dec "c" c5) as [_|]; [|done].
  destruct x as [|c6 x]; cbn [String.append String.prefix]; [done|].
  destruct (ascii_dec "e" c6) as [_|]; [|done].
  by destruct x.
Qed.

Lemma replace_appended_Service x :
  occurs "Service" x = false → Str.replace "Service" "" (x +:+ "Service") = x.
Proof.
  unfold Str.replace. induction x as [|c x IH]; [done|].
  cbn [occurs]. intros [Hhere Hlater]%orb_false_iff.
  change (String c x +:+ "Service") with (String c (x +:+ "Service")).
  cbn [Str.replace_from].
  change (String c (x +:+ "Service")) with (String c x +:+ "Service").
  by rewrite (no_Service_across _ _ Hhere), (IH Hlater).
Qed.

(** X4.  When the word [Service] does not occur in the PascalCase form of
    the service name, the template receives exactly that PascalCase name:
    removing [Service] from the class name takes away the appended suffix and
    nothing else. *)
Theorem template_gets_the_pascal_name env template module_path config request_class response_class w :
  env (ServiceConfig.type config +:+ "_service.j2") = Some template →
  occurs "Service" (toPascal (ServiceConfig.name config)) = false →
  ServiceGenerator._get_template_content
    (ServiceGenerator.make env module_path config) request_class response_class w
  = (Ok (template (toPascal (ServiceConfig.name config))
                  (if bool_decide (request_class = "") then "None" else request_class)
                  (if bool_decide (response_class = "") then "None" else response_class)),
     w).
Proof.
  intros Henv Hfree.
  rewrite (get_template_content_run _ template) by done.
  cbn [ServiceGenerator.make ServiceGenerator.service_class_name].
  by rewrite replace_appended_Service.
Qed.

Lemma template_gets_the_pascal_name_witness :
  ServiceGenerator._get_template_content
    (ServiceGenerator.make sample_env billing
       (ServiceConfig.mk "user_profile" "billing" "domain" false)) "" "" (World [] [])
  = (Ok (sample_template "domain_service.j2" "UserProfile" "None" "None"), World [] []).
Proof.
  apply (template_gets_the_pascal_name sample_env (sample_template "domain_service.j2")
           billing (ServiceConfig.mk "user_profile" "billing" "domain" false)
           "" "" (World [] [])); reflexivity.
Defined.

(** ** What the generators leave alone *)

Lemma touches_only_refl ps d : touches_only ps d d.
Proof. by split_and!. Qed.

Lemma touches_only_trans ps d1 d2 d3 :
  touches_only ps d1 d2 → touches_only ps d2 d3 → touches_only ps d1 d3.
Proof.
  intros (Hf1 & Hd1 & He1) (Hf2 & Hd2 & He2). split_and!.
  - intros q Hq c. by rewrite (Hf2 q Hq), (Hf1 q Hq).
  - auto.
  - auto.
Qed.

Lemma touches_only_mono ps ps' d d' :
  (∀ q, q ∈ ps → q ∈ ps') → touches_only ps d d' → touches_only ps' d d'.
Proof. intros Hsub (Hf & Hd & He). split_and!; [|done..]. intros q Hq. apply Hf. auto. Qed.

Lemma mkdir_from_touches tgt base todo d r d' :
  mkdir_from tgt base todo d = (r, d') → touches_only [] d d'.
Proof.
  intros Hrun. split_and!.
  - intros q _ c. by eapply mkdir_from_files.
  - intros q Hq. by eapply mkdir_from_keeps.
  - intros q [n Hq]%path_exists_stat. apply path_exists_stat. exists n.
    by eapply mkdir_from_keeps.
Qed.

Lemma mkdir_touches ps p w r w' :
  mkdir p w = (r, w') → touches_only ps (disk w) (disk w') ∧ console w' = console w.
Proof.
  unfold mkdir. destruct (mkdir_from p [] p (disk w)) as [r1 d1] eqn:Hmk.
  intros. simplify_eq. split; [|done].
  eapply (touches_only_mono []); [by intros ? ?%elem_of_nil|].
  by eapply mkdir_from_touches.
Qed.

Lemma write_text_touches ps p c w r w' :
  p ∈ ps →
  write_text p c w = (r, w') →
  touches_only ps (disk w) (disk w') ∧ console w' = console w.
Proof.
  intros Hps Hrun. apply write_text_inv in Hrun.
  destruct r as [[]|e]; [|subst; split; [apply touches_only_refl | done]].
  destruct Hrun as [Hp ->]. cbn [disk console]. split; [|done].
  pose proof (stat_not_dir_not_anchor _ _ Hp) as Ha. split_and!.
  - intros q Hq c'. rewrite stat_store_ne; [done|]. by intros ->.
  - intros q Hq. rewrite stat_store_ne; [done|]. congruence.
  - intros q Hq. destruct (decide (p = q)) as [<-|Hne].
    + apply path_exists_stat. eexists. by apply stat_store_eq.
    + unfold path_exists. by rewrite stat_store_ne.
Qed.

(** Two steps that write nowhere but at [ps] make a run that writes nowhere
    but at [ps]. *)
Lemma touches_only_step ps w w1 w2 :
  touches_only ps (disk w) (disk w1) ∧ console w1 = console w →
  touches_only ps (disk w1) (disk w2) ∧ console w2 = console w1 →
  touches_only ps (disk w) (disk w2) ∧ console w2 = console w.
Proof. intros [H1 Hc1] [H2 Hc2]. split; [by eapply touches_only_trans | congruence]. Qed.

Lemma dto_generate_frame ps g w :
  (∀ q, q ∈ [DTOGenerator.request_file g; DTOGenerator.response_file g;
             DTOGenerator.init_file g] → q ∈ ps) →
  let w' := (DTOGenerator.generate g w).2 in
  touches_only ps (disk w) (disk w') ∧ console w' = console w.
Proof.
  intros Hps. unfold DTOGenerator.generate.
  destruct (mkdir (DTOGenerator.dtos_dir g) w) as [r1 w1] eqn:Hmk.
  erewrite bind_run by done. apply (mkdir_touches ps) in Hmk as H1.
  destruct r1 as [[]|e1]; [|done].
  erewrite bind_run by reflexivity; cbv beta iota.
  destruct (path_exists (disk w1) (DTOGenerator.request_file g)).
  { by erewrite bind_run by reflexivity. }
  erewrite bind_run by reflexivity; cbv beta iota.
  destruct (path_exists (disk w1) (DTOGenerator.response_file g)); [done|].
  destruct (write_text (DTOGenerator.request_file g) (DTOGenerator.request_stub g) w1)
    as [r2 w2] eqn:Hw1; erewrite bind_run by done.
  apply (write_text_touches ps) in Hw1; [|apply Hps; repeat constructor].
  pose proof (touches_only_step _ _ _ _ H1 Hw1) as H2.
  destruct r2 as [[]|e2]; [|done].
  destruct (write_text (DTOGenerator.response_file g) (DTOGenerator.response_stub g) w2)
    as [r3 w3] eqn:Hw2; erewrite bind_run by done.
  apply (write_text_touches ps) in Hw2; [|apply Hps; repeat constructor].
  pose proof (touches_only_step _ _ _ _ H2 Hw2) as H3.
  destruct r3 as [[]|e3]; [|done].
  destruct (write_text (DTOGenerator.init_file g) (DTOGenerator.init_content g) w3)
    as [r4 w4] eqn:Hw3; erewrite bind_run by done.
  apply (write_text_touches ps) in Hw3; [|apply Hps; repeat constructor].
  pose proof (touches_only_step _ _ _ _ H3 Hw3) as H4.
  by destruct r4 as [[]|e4].
Qed.

Lemma service_generate_frame ps g request_class response_class w :
  ServiceGenerator.service_file g ∈ ps →
  let w' := (ServiceGenerator.generate g request_class response_class w).2 in
  touches_only ps (disk w) (disk w') ∧ console w' = console w.
Proof.
  intros Hps. unfold ServiceGenerator.generate.
  destruct (mkdir (ServiceGenerator.service_dir g) w) as [r1 w1] eqn:Hmk.
  erewrite bind_run by done.
  apply (mkdir_touches ps) in Hmk as H1.
  destruct r1 as [[]|e1]; [|done].
  erewrite bind_run by reflexivity; cbv beta iota.
  destruct (path_exists _ _); [done|].
  destruct (ServiceGenerator._get_template_content g request_class response_class w1)
    as [[content|e2] w2] eqn:Ht; erewrite bind_run by done; cbv beta iota;
    apply get_template_content_inv in Ht as [-> _]; [|done].
  destruct (write_text _ _ w1) as [r3 w3] eqn:Hw. cbn [snd].
  apply (write_text_touches ps) in Hw; [|done].
  by eapply touches_only_step.
Qed.

(** X5.  Whatever its outcome, [DTOGenerator.generate] writes nowhere but
    at its three targets, when these are paths without [".."] (the system
    then writes where the paths say): every other regular file keeps its
    text and no regular file appears elsewhere, every directory stays a
    directory, nothing that existed is gone, and the console is not
    written. *)
Theorem dto_generate_touches_only g w :
  forallb direct [DTOGenerator.request_file g; DTOGenerator.response_file g;
                  DTOGenerator.init_file g] = true →
  let w' := (DTOGenerator.generate g w).2 in
  touches_only [DTOGenerator.request_file g; DTOGenerator.response_file g;
                DTOGenerator.init_file g] (disk w) (disk w')
  ∧ console w' = console w.
Proof. intros _. by apply dto_generate_frame. Qed.

Lemma dto_generate_touches_only_witness :
  let g := DTOGenerator.make billing "checkout" "domain" in
  let w := World (invoice_disk ++ [(billing ++ ["notes.txt"], File "keep")]) ["hello"] in
  let w' := (DTOGenerator.generate g w).2 in
  stat (disk w') (DTOGenerator.request_file g) = Some (File (DTOGenerator.request_stub g))
  ∧ stat (disk w') (billing ++ ["notes.txt"]) = Some (File "keep")
  ∧ console w' = ["hello"].
Proof.
  intros g w w'.
  destruct (dto_generate_touches_only g w eq_refl) as [(Hfiles & _ & _) Hout].
  split_and!; [vm_compute; reflexivity | | exact Hout].
  apply Hfiles; [|reflexivity].
  intros Hin. vm_compute in Hin. by repeat (apply elem_of_cons in Hin as [?|Hin]; [done|]);
    apply elem_of_nil in Hin.
Defined.

(** X6.  Whatever its outcome, [ServiceGenerator.generate] writes nowhere
    but at the service file, when the service directory and the service file
    are paths without [".."] (the system then writes where the paths say):
    every other regular file keeps its text and no regular file appears
    elsewhere, every directory stays a directory, nothing that existed is
    gone, and the console is not written. *)
Theorem service_generate_touches_only g request_class response_class w :
  forallb direct [ServiceGenerator.service_dir g; ServiceGenerator.service_file g] = true →
  let w' := (ServiceGenerator.generate g request_class response_class w).2 in
  touches_only [ServiceGenerator.service_file g] (disk w) (disk w')
  ∧ console w' = console w.
Proof. intros _. apply service_generate_frame. by left. Qed.

Lemma service_generate_touches_only_witness :
  let g := ServiceGenerator.make sample_env billing
             (ServiceConfig.mk "checkout" "billing" "application" false) in
  let w := World invoice_disk ["hello"] in
  let w' := (ServiceGenerator.generate g "" "" w).2 in
  path_exists (disk w') (ServiceGenerator.service_file g) = true
  ∧ stat (disk w') (billing ++ ["services"; "application"; "invoice_service.py"])
    = Some (File "# by hand")
  ∧ console w' = ["hello"].
Proof.
  intros g w w'.
  destruct (service_generate_touches_only g "" "" w eq_refl) as [(Hfiles & _ & _) Hout].
  split_and!; [vm_compute; reflexivity | | exact Hout].
  apply Hfiles; [|reflexivity].
  intros Hin. vm_compute in Hin. by repeat (apply elem_of_cons in Hin as [?|Hin]; [done|]);
    apply elem_of_nil in Hin.
Defined.

(** ** The disk stays well formed *)

Lemma store_keys p n d :
  (store p n d).*1 = match lookup_path d p with Some _ => d.*1 | None => d.*1 ++ [p] end.
Proof.
  induction d as [|[q m] d IH]; cbn [store lookup_path]; [done|].
  case_decide; [done|]. rewrite fmap_cons, IH. by destruct (lookup_path d p).
Qed.

Lemma lookup_path_None_not_in d p : lookup_path d p = None → p ∉ d.*1.
Proof. intros Hp [n Hn]%lookup_path_is_Some. congruence. Qed.

Lemma elem_of_store e p n d : e ∈ store p n d → e = (p, n) ∨ e ∈ d.
Proof.
  induction d as [|[q m] d IH]; cbn [store].
  - intros ->%list_elem_of_singleton. by left.
  - case_decide as Hq.
    + intros [->|He]%elem_of_cons; [left; by subst | right; by right].
    + intros [->|He]%elem_of_cons; [right; by left|].
      destruct (IH He) as [->|?]; [by left | right; by right].
Qed.

Lemma removelast_ne {A} (p : list A) : p ≠ [] → removelast p ≠ p.
Proof.
  intros Hp Heq. destruct (exists_last Hp) as (q & x & ->).
  rewrite removelast_last in Heq. apply (f_equal (@List.length A)) in Heq.
  rewrite length_app in Heq. cbn in Heq. lia.
Qed.

(** Putting a node where its parent is a directory keeps the disk well
    formed, unless it turns a directory into a file. *)
Lemma wf_store d p n :
  wf d → Path.is_anchor p = false → stat d (removelast p) = Some Dir →
  (stat d p = Some Dir → n = Dir) →
  wf (store p n d).
Proof.
  intros [Hnodup Hall] Ha Hup Hn.
  assert (p ≠ []) as Hp0 by (by intros ->).
  split.
  - rewrite store_keys. destruct (lookup_path d p) eqn:Hp; [done|].
    apply NoDup_app. split_and!; [done| |apply NoDup_singleton].
    intros q Hq ->%list_elem_of_singleton. by apply lookup_path_None_not_in in Hp.
  - apply Forall_forall. intros e He.
    assert (Path.is_anchor e.1 = false ∧ stat d (removelast e.1) = Some Dir) as [Hae Hupe].
    { apply elem_of_store in He as [->|He]; [done|].
      by apply (proj1 (Forall_forall _ _) Hall). }
    split; [done|]. destruct (decide (p = removelast e.1)) as [Heq|Hne].
    + rewrite <-Heq. rewrite <-Heq in Hupe. rewrite stat_store_eq by done.
      by rewrite (Hn Hupe).
    + by rewrite stat_store_ne.
Qed.

Lemma mkdir_from_wf tgt base todo d r d' :
  wf d → stat d base = Some Dir →
  mkdir_from tgt base todo d = (r, d') → wf d'.
Proof.
  revert base d. induction todo as [|s rest IH]; intros base d Hwf Hbase Hrun.
  { by simplify_eq/=. }
  cbn [mkdir_from] in Hrun.
  destruct (stat d (base ++ [s])) as [[c|]|] eqn:Hs.
  - by simplify_eq.
  - by eapply IH.
  - pose proof (stat_None_not_anchor _ _ Hs) as Ha.
    eapply IH; [|by apply stat_store_eq|done].
    apply wf_store; [done..|by rewrite removelast_last|congruence].
Qed.

Lemma walk_dir d base todo :
  stat d base = Some Dir → walk d base todo = None → stat d (base ++ todo) = Some Dir.
Proof.
  revert base. induction todo as [|s rest IH]; intros base Hbase Hwalk.
  { by rewrite app_nil_r. }
  cbn [walk] in Hwalk. destruct (stat d (base ++ [s])) as [[c|]|] eqn:Hs; [done| |done].
  rewrite (cons_middle s base rest), app_assoc. by apply IH.
Qed.

Lemma mkdir_wf p w r w' : wf (disk w) → mkdir p w = (r, w') → wf (disk w').
Proof.
  unfold mkdir. destruct (mkdir_from p [] p (disk w)) as [r1 d1] eqn:Hmk.
  intros Hwf ?. simplify_eq. cbn [disk]. by eapply (mkdir_from_wf _ []).
Qed.

Lemma write_text_wf p c w r w' : wf (disk w) → write_text p c w = (r, w') → wf (disk w').
Proof.
  intros Hwf Hrun. unfold write_text in Hrun.
  destruct (walk (disk w) [] (removelast p)) eqn:Hwalk; [by simplify_eq|].
  apply (walk_dir _ [] _ eq_refl) in Hwalk. cbn [app] in Hwalk.
  destruct (stat (disk w) p) as [[c'|]|] eqn:Hp; simplify_eq; [|done|]; cbn [disk];
    (apply wf_store; [done| |done|congruence]);
    eapply stat_not_dir_not_anchor; by rewrite Hp.
Qed.

(** X7.  The generators keep the disk well formed: after any run of
    [DTOGenerator.generate], [ServiceGenerator.generate] or
    [generate_module], successful or not, each path still has one entry and
    each entry still lies in a directory. *)
Theorem generators_keep_the_disk_well_formed w :
  wf (disk w) →
  (∀ g, wf (disk (DTOGenerator.generate g w).2))
  ∧ (∀ g request_class response_class,
       wf (disk (ServiceGenerator.generate g request_class response_class w).2))
  ∧ (∀ name, wf (disk (generate_module name w).2)).
Proof.
  intros Hwf. split_and!.
  - intros g. unfold DTOGenerator.generate.
    destruct (mkdir (DTOGenerator.dtos_dir g) w) as [r1 w1] eqn:Hmk.
    erewrite bind_run by done. apply mkdir_wf in Hmk as H1; [|done].
    destruct r1 as [[]|e1]; [|done].
    erewrite bind_run by reflexivity; cbv beta iota.
    destruct (path_exists (disk w1) (DTOGenerator.request_file g)).
    { by erewrite bind_run by reflexivity. }
    erewrite bind_run by reflexivity; cbv beta iota.
    destruct (path_exists (disk w1) (DTOGenerator.response_file g)); [done|].
    destruct (write_text (DTOGenerator.request_file g) (DTOGenerator.request_stub g) w1)
      as [r2 w2] eqn:Hw1; erewrite bind_run by done.
    apply write_text_wf in Hw1 as H2; [|done]. destruct r2 as [[]|e2]; [|done].
    destruct (write_text (DTOGenerator.response_file g) (DTOGenerator.response_stub g) w2)
      as [r3 w3] eqn:Hw2; erewrite bind_run by done.
    apply write_text_wf in Hw2 as H3; [|done]. destruct r3 as [[]|e3]; [|done].
    destruct (write_text (DTOGenerator.init_file g) (DTOGenerator.init_content g) w3)
      as [r4 w4] eqn:Hw3; erewrite bind_run by done.
    apply write_text_wf in Hw3 as H4; [|done]. by destruct r4 as [[]|e4].
  - intros g request_class response_class. unfold ServiceGenerator.generate.
    destruct (mkdir (ServiceGenerator.service_dir g) w) as [r1 w1] eqn:Hmk.
    erewrite bind_run by done. apply mkdir_wf in Hmk as H1; [|done].
    destruct r1 as [[]|e1]; [|done].
    erewrite bind_run by reflexivity; cbv beta iota.
    destruct (path_exists _ _); [done|].
    destruct (ServiceGenerator._get_template_content g request_class response_class w1)
      as [[content|e2] w2] eqn:Ht; erewrite bind_run by done; cbv beta iota;
      apply get_template_content_inv in Ht as [-> _]; [|done].
    destruct (write_text _ _ w1) as [r3 w3] eqn:Hw. cbn [snd].
    by apply write_text_wf in Hw.
  - intros name. unfold generate_module.
    destruct (mkdir (Path.of_string ("src/modules/" +:+ name)) w) as [r1 w1] eqn:Hmk.
    erewrite bind_run by done. apply mkdir_wf in Hmk; [|done].
    by destruct r1 as [[]|e1].
Qed.

Lemma generators_keep_the_disk_well_formed_witness :
  wf (disk (DTOGenerator.generate (DTOGenerator.make billing "checkout" "domain")
              (World modules_disk [])).2).
Proof.
  apply (generators_keep_the_disk_well_formed (World modules_disk [])).
  apply wf_check. vm_compute. reflexivity.
Defined.

(** ** Running a generator again *)

Lemma mkdir_ok_all_dirs p w w' : mkdir p w = (Ok tt, w') → all_dirs (disk w') [] p.
Proof.
  unfold mkdir. destruct (mkdir_from p [] p (disk w)) as [r d1] eqn:Hmk.
  intros. simplify_eq. cbn [disk]. by eapply mkdir_from_all_dirs.
Qed.

Lemma write_text_all_dirs p c w w' base todo :
  write_text p c w = (Ok tt, w') → all_dirs (disk w) base todo → all_dirs (disk w') base todo.
Proof.
  intros [Hp ->]%write_text_inv Hdirs. cbn [disk]. by apply all_dirs_store.
Qed.

Lemma mkdir_all_dirs_noop p w : all_dirs (disk w) [] p → mkdir p w = (Ok tt, w).
Proof.
  intros Hdirs. destruct w as [d out]. apply (mkdir_run _ (World d out)).
  by apply mkdir_from_noop.
Qed.

(** After a successful [DTOGenerator.generate] the way to the DTO directory
    is made of directories. *)
Lemma dto_generate_ok_all_dirs g w classes w' :
  DTOGenerator.generate g w = (Ok classes, w') →
  all_dirs (disk w') [] (DTOGenerator.dtos_dir g).
Proof.
  unfold DTOGenerator.generate.
  destruct (mkdir (DTOGenerator.dtos_dir g) w) as [[[]|e] w1] eqn:Hmk;
    erewrite bind_run by done; cbv beta iota; [|done].
  apply mkdir_ok_all_dirs in Hmk.
  erewrite bind_run by reflexivity; cbv beta iota.
  destruct (path_exists (disk w1) (DTOGenerator.request_file g)).
  { by erewrite bind_run by reflexivity. }
  erewrite bind_run by reflexivity; cbv beta iota.
  destruct (path_exists (disk w1) (DTOGenerator.response_file g)); [done|].
  destruct (write_text (DTOGenerator.request_file g) (DTOGenerator.request_stub g) w1)
    as [[[]|e] w2] eqn:Hw1; erewrite bind_run by done; cbv beta iota; [|done].
  destruct (write_text (DTOGenerator.response_file g) (DTOGenerator.response_stub g) w2)
    as [[[]|e] w3] eqn:Hw2; erewrite bind_run by done; cbv beta iota; [|done].
  destruct (write_text (DTOGenerator.init_file g) (DTOGenerator.init_content g) w3)
    as [[[]|e] w4] eqn:Hw3; erewrite bind_run by done; cbv beta iota; [|done].
  intros [= _ <-].
  eapply write_text_all_dirs; [done|]. eapply write_text_all_dirs; [done|].
  by eapply write_text_all_dirs.
Qed.

(** The check of [DTOGenerator.generate] alone: on a disk that has the DTO
    directory and the request file, the call stops there. *)
Lemma dto_generate_stops g w n :
  all_dirs (disk w) [] (DTOGenerator.dtos_dir g) →
  stat (disk w) (DTOGenerator.request_file g) = Some n →
  DTOGenerator.generate g w = (Raised (DTOGenerator.duplicate g), w).
Proof.
  intros Hdirs Hreq. unfold DTOGenerator.generate.
  erewrite bind_run by (by apply mkdir_all_dirs_noop); cbv beta iota.
  erewrite bind_run by reflexivity; cbv beta iota.
  rewrite (proj2 (path_exists_stat _ _) (ex_intro _ n Hreq)).
  by erewrite bind_run by reflexivity.
Qed.

(** X8.  Generating the DTOs of a service a second time is refused: after
    a successful [DTOGenerator.generate], the same call raises the
    [FileExistsError] of the generator and leaves the world, hence the first
    pair of files, exactly as it was. *)
Theorem dto_generate_again_is_refused g w classes w' :
  DTOGenerator.generate g w = (Ok classes, w') →
  DTOGenerator.generate g w' = (Raised (DTOGenerator.duplicate g), w')
  ∧ stat (disk w') (DTOGenerator.request_file g) = Some (File (DTOGenerator.request_stub g))
  ∧ stat (disk w') (DTOGenerator.response_file g) = Some (File (DTOGenerator.response_stub g)).
Proof.
  intros Hrun. destruct (dto_generate_ok _ _ _ _ Hrun) as (Hreq & Hresp & _).
  split_and!; [|done..].
  eapply dto_generate_stops; [by eapply dto_generate_ok_all_dirs | done].
Qed.

Lemma dto_generate_again_is_refused_witness :
  let g := DTOGenerator.make billing "checkout" "domain" in
  let w' := (DTOGenerator.generate g (World modules_disk [])).2 in
  DTOGenerator.generate g w'
  = (Raised (Exn FileExistsError "❌ Já existem DTOs para checkout"), w').
Proof.
  intros g w'.
  apply (dto_generate_again_is_refused g (World modules_disk [])
           ("CheckoutRequestDto", "CheckoutResponseDto") w').
  vm_compute. reflexivity.
Defined.

Lemma service_generate_ok g request_class response_class w w' :
  ServiceGenerator.generate g request_class response_class w = (Ok tt, w') →
  all_dirs (disk w') [] (ServiceGenerator.service_dir g)
  ∧ ∃ content, stat (disk w') (ServiceGenerator.service_file g) = Some (File content).
Proof.
  unfold ServiceGenerator.generate.
  destruct (mkdir (ServiceGenerator.service_dir g) w) as [[[]|e] w1] eqn:Hmk;
    erewrite bind_run by done; cbv beta iota; [|done].
  apply mkdir_ok_all_dirs in Hmk.
  erewrite bind_run by reflexivity; cbv beta iota.
  destruct (path_exists _ _); [done|].
  destruct (ServiceGenerator._get_template_content g request_class response_class w1)
    as [[content|e2] w2] eqn:Ht; erewrite bind_run by done; cbv beta iota;
    apply get_template_content_inv in Ht as [-> _]; [|done].
  intros Hw. split; [by eapply write_text_all_dirs|].
  apply write_text_inv in Hw as [Hp ->]. cbn [disk]. eexists.
  apply stat_store_eq. by eapply stat_not_dir_not_anchor.
Qed.

(** X9.  A service is created once per layer and lower-case name: after a
    successful [ServiceGenerator.generate], a call for the same module and
    layer and a name with the same lower-case form (the same name, or one
    that differs by the case of its letters) raises the [FileExistsError] of
    the generator and leaves the world, hence the service file, as it was. *)
Theorem service_generate_again_is_refused
    env env' module_path config config' request_class response_class
    request_class' response_class' w w' :
  Str.lower (ServiceConfig.name config') = Str.lower (ServiceConfig.name config) →
  ServiceConfig.type config' = ServiceConfig.type config →
  ServiceGenerator.generate (ServiceGenerator.make env module_path config)
    request_class response_class w = (Ok tt, w') →
  ServiceGenerator.generate (ServiceGenerator.make env' module_path config')
    request_class' response_class' w'
  = (Raised (Exn FileExistsError
               ("❌ Já existe um service " +:+ Str.lower (ServiceConfig.name config)
                +:+ "_service.py")), w').
Proof.
  intros Hname Htype Hrun.
  destruct (service_generate_ok _ _ _ _ _ Hrun) as (Hdirs & content & Hfile).
  set (g' := ServiceGenerator.make env' module_path config').
  assert (ServiceGenerator.service_dir g'
          = ServiceGenerator.service_dir (ServiceGenerator.make env module_path config)) as Hdir
    by (cbn [g' ServiceGenerator.make ServiceGenerator.service_dir]; by rewrite Hname, Htype).
  assert (ServiceGenerator.service_file g'
          = ServiceGenerator.service_file (ServiceGenerator.make env module_path config)) as Hf
    by (unfold ServiceGenerator.service_file; rewrite Hdir;
        cbn [g' ServiceGenerator.make ServiceGenerator.service_name]; by rewrite Hname).
  unfold ServiceGenerator.generate. rewrite Hdir.
  erewrite bind_run by (by apply mkdir_all_dirs_noop); cbv beta iota.
  erewrite bind_run by reflexivity; cbv beta iota.
  fold (ServiceGenerator.service_file g'). rewrite Hf.
  rewrite (proj2 (path_exists_stat _ _) (ex_intro _ _ Hfile)).
  unfold raise, ServiceGenerator.duplicate.
  cbn [g' ServiceGenerator.make ServiceGenerator.service_name]. by rewrite Hname.
Qed.

Lemma service_generate_again_is_refused_witness :
  let first := ServiceGenerator.make sample_env billing
                 (ServiceConfig.mk "order" "billing" "domain" false) in
  let second := ServiceGenerator.make sample_env billing
                  (ServiceConfig.mk "Order" "billing" "domain" false) in
  let w' := (ServiceGenerator.generate first "" "" (World modules_disk [])).2 in
  ServiceGenerator.generate second "" "" w'
  = (Raised (Exn FileExistsError "❌ Já existe um service order_service.py"), w').
Proof.
  intros first second w'.
  apply (service_generate_again_is_refused sample_env sample_env billing
           (ServiceConfig.mk "order" "billing" "domain" false)
           (ServiceConfig.mk "Order" "billing" "domain" false)
           "" "" "" "" (World modules_disk []) w'); [reflexivity..|].
  vm_compute. reflexivity.
Defined.

(** ** Modules: creating, listing, resolving *)

Lemma plain_parts s :
  plain s = true → s ≠ "" ∧ s ≠ "." ∧ free_of "/" s = true.
Proof.
  unfold plain. intros [[[H1 H2]%andb_true_iff _]%andb_true_iff H3]%andb_true_iff.
  apply negb_true_iff, bool_decide_eq_false in H1, H2. done.
Qed.

Lemma segments_plain s : plain s = true → Path.segments s = [s].
Proof.
  intros (H1 & H2 & H3)%plain_parts. unfold Path.segments.
  rewrite (split_free_of _ _ H3). by rewrite filter_cons_True.
Qed.

Lemma joinpath_plain p s : plain s = true → p // s = p ++ [s].
Proof.
  intros Hs. rewrite joinpath_relative, segments_plain; [done..|].
  apply free_of_startswith. by apply plain_parts.
Qed.

Lemma module_root name :
  plain name = true → Path.of_string ("src/modules/" +:+ name) = ["src"; "modules"; name].
Proof.
  intros (H1 & H2 & H3)%plain_parts. unfold Path.of_string.
  rewrite anchor_relative by done. unfold Path.segments.
  cbn [String.append Str.split]. rewrite (split_free_of _ _ H3).
  cbn -[filter]. rewrite !filter_cons_True by done. by rewrite filter_nil.
Qed.

Lemma listed_sound d base n :
  n ∈ (Path.name <$>
         filter (λ e, is_dir d e = true ∧ Path.name e ≠ "shared") (children d base)) →
  lookup_path d (base ++ [n]) = Some Dir ∧ n ≠ "shared".
Proof.
  intros (e & -> & [[Hd Hne] He]%list_elem_of_filter)%list_elem_of_fmap.
  split; [by apply child_is_dir | done].
Qed.

Lemma listed_complete d base n :
  wf d → lookup_path d (base ++ [n]) = Some Dir → n ≠ "shared" →
  n ∈ (Path.name <$>
         filter (λ e, is_dir d e = true ∧ Path.name e ≠ "shared") (children d base)).
Proof.
  intros Hwf Hlook Hne. apply list_elem_of_fmap. exists (base ++ [n]).
  destruct (wf_lookup _ _ _ Hwf Hlook) as [Ha _].
  assert (Path.name (base ++ [n]) = n) as Hname
    by (unfold Path.name; by rewrite Ha, last_last).
  split; [done|]. apply list_elem_of_filter. split.
  - split; [|by rewrite Hname]. unfold is_dir, stat. by rewrite Ha, Hlook.
  - apply children_elem_of. split_and!; [|done|apply removelast_last].
    apply list_elem_of_fmap. exists (base ++ [n], Dir).
    split; [done|]. by apply lookup_path_elem_of.
Qed.

Lemma get_available_modules_ok self w ms w' :
  ModuleManager.get_available_modules self w = (Ok ms, w') →
  w' = w
  ∧ is_dir (disk w) (ModuleManager.base_path self) = true
  ∧ ms = (Path.name <$>
            filter (λ e, is_dir (disk w) e = true ∧ Path.name e ≠ "shared")
                   (children (disk w) (ModuleManager.base_path self))).
Proof.
  destruct (is_dir (disk w) (ModuleManager.base_path self)) eqn:Hdir.
  - rewrite get_available_modules_run by done.
    destruct (Path.name <$> _) as [|m ms']; [done|]. by intros [= <- <-].
  - unfold ModuleManager.get_available_modules.
    erewrite bind_run by reflexivity; cbv beta iota.
    unfold is_dir in Hdir. unfold path_exists.
    destruct (stat (disk w) (ModuleManager.base_path self)) as [[c|]|] eqn:Hst;
      [|done|done].
    cbn [negb]. erewrite bind_run; last first.
    { unfold iterdir. by rewrite Hst. }
    done.
Qed.

Lemma get_available_modules_world self w :
  (ModuleManager.get_available_modules self w).2 = w.
Proof.
  destruct (stat (disk w) (ModuleManager.base_path self)) as [[c|]|] eqn:Hst.
  - unfold ModuleManager.get_available_modules.
    erewrite bind_run by reflexivity; cbv beta iota.
    unfold path_exists. rewrite Hst. cbn [negb].
    erewrite bind_run; last first.
    { unfold iterdir. by rewrite Hst. }
    done.
  - rewrite get_available_modules_run by (unfold is_dir; by rewrite Hst).
    by destruct (Path.name <$> _).
  - unfold ModuleManager.get_available_modules.
    erewrite bind_run by reflexivity; cbv beta iota.
    unfold path_exists. by rewrite Hst.
Qed.

(** X10.  [get_available_modules] only reads: the world is the same after
    every call.  A list it returns is never empty, never has [shared] in it,
    and names directories that lie directly in the root.  When it fails, the
    exception is a [FileNotFoundError], or the [NotADirectoryError] of
    [iterdir] when the root is a regular file. *)
Theorem catalog_only_reads self w :
  match ModuleManager.get_available_modules self w with
  | (Ok ms, w') =>
      w' = w ∧ ms ≠ [] ∧ ("shared" ∉ ms)
      ∧ ∀ m, m ∈ ms →
             lookup_path (disk w) (ModuleManager.base_path self ++ [m]) = Some Dir
  | (Raised e, w') =>
      w' = w
      ∧ (kind e = FileNotFoundError
         ∨ (kind e = NotADirectoryError
            ∧ is_file (disk w) (ModuleManager.base_path self) = true))
  end.
Proof.
  destruct (stat (disk w) (ModuleManager.base_path self)) as [[c|]|] eqn:Hst.
  - unfold ModuleManager.get_available_modules.
    erewrite bind_run by reflexivity; cbv beta iota.
    unfold path_exists. rewrite Hst. cbn [negb].
    erewrite bind_run; last first.
    { unfold iterdir. by rewrite Hst. }
    cbv beta iota. split; [done|]. right. split; [done|]. unfold is_file. by rewrite Hst.
  - rewrite get_available_modules_run by (unfold is_dir; by rewrite Hst).
    destruct (Path.name <$> _) as [|m ms] eqn:Hms; [by split; [|left]|].
    split_and!; [done|done| |].
    + rewrite <-Hms. by intros [_ ?]%listed_sound.
    + intros n Hn. rewrite <-Hms in Hn. by apply listed_sound in Hn as [? _].
  - unfold ModuleManager.get_available_modules.
    erewrite bind_run by reflexivity; cbv beta iota.
    unfold path_exists. rewrite Hst. cbn [negb]. by split; [|left].
Qed.

(** X11.  A module of the catalog resolves to a directory that exists:
    for every plain name [m] that [get_available_modules] returns,
    [get_module_path] is the root followed by [m], and it is a directory of
    the disk. *)
Theorem listed_module_resolves self w ms w' m :
  ModuleManager.get_available_modules self w = (Ok ms, w') →
  m ∈ ms →
  plain m = true →
  ModuleManager.get_module_path self m = ModuleManager.base_path self ++ [m]
  ∧ is_dir (disk w) (ModuleManager.get_module_path self m) = true.
Proof.
  intros Hrun Hm Hplain. unfold ModuleManager.get_module_path.
  rewrite (joinpath_plain _ _ Hplain). split; [done|].
  apply get_available_modules_ok in Hrun as (_ & _ & ->).
  apply listed_sound in Hm as [Hdir _].
  unfold is_dir, stat. rewrite Hdir. by destruct (Path.is_anchor _).
Qed.

Lemma listed_module_resolves_witness :
  ModuleManager.get_module_path ModuleManager.default "inventory"
  = ["src"; "modules"] ++ ["inventory"]
  ∧ is_dir modules_disk (ModuleManager.get_module_path ModuleManager.default "inventory") = true.
Proof.
  apply (listed_module_resolves ModuleManager.default (World modules_disk [])
           ["billing"; "inventory"] (World modules_disk []) "inventory").
  - vm_compute. reflexivity.
  - repeat constructor.
  - reflexivity.
Defined.

(** X12.  [generate_module] makes a module that the catalog lists.  On a
    well-formed disk, for a plain name with no regular file on the way to
    [src/modules/<name>], the command succeeds, prints its message, leaves
    [src/modules/<name>] a directory and writes no file; and unless the name
    is [shared], [get_available_modules] then succeeds and has the name in
    its list. *)
Theorem generate_module_is_listed name w :
  wf (disk w) →
  plain name = true →
  clear (disk w) ["src"; "modules"; name] = true →
  ∃ w',
    generate_module name w = (Ok tt, w')
    ∧ console w' = console w ++ ["[bold green]✅ Módulo criado com sucesso![/bold green]"]
    ∧ is_dir (disk w') ["src"; "modules"; name] = true
    ∧ touches_only [] (disk w) (disk w')
    ∧ (name ≠ "shared" →
       ∃ ms, ModuleManager.get_available_modules ModuleManager.default w' = (Ok ms, w')
             ∧ name ∈ ms).
Proof.
  intros Hwf Hplain Hclear.
  destruct (mkdir_from_clear ["src"; "modules"; name] [] _ _ Hclear) as [d1 Hmk].
  pose proof (mkdir_from_all_dirs _ _ _ _ _ Hmk) as Hdirs.
  pose proof (mkdir_from_wf _ [] _ _ _ _ Hwf eq_refl Hmk) as Hwf1.
  exists (World d1 (console w ++ ["[bold green]✅ Módulo criado com sucesso![/bold green]"])).
  split_and!; cbn [disk console].
  - unfold generate_module. rewrite (module_root _ Hplain).
    by erewrite bind_run by (by apply mkdir_run).
  - done.
  - unfold is_dir. by rewrite (all_dirs_target _ _ Hdirs).
  - by eapply mkdir_from_touches.
  - intros Hne.
    assert (stat d1 ["src"; "modules"] = Some Dir) as Hroot
      by (by apply (Hdirs ["src"; "modules"] [name])).
    assert (lookup_path d1 (["src"; "modules"] ++ [name]) = Some Dir) as Hlook
      by (by apply (all_dirs_target _ _ Hdirs)).
    rewrite get_available_modules_run; last first.
    { change (ModuleManager.base_path ModuleManager.default) with ["src"; "modules"].
      cbn [disk]. unfold is_dir. by rewrite Hroot. }
    cbn [disk].
    pose proof (listed_complete d1 ["src"; "modules"] name Hwf1 Hlook Hne) as Hin.
    change (ModuleManager.base_path ModuleManager.default) with ["src"; "modules"].
    destruct (Path.name <$> _) as [|m ms]; [by apply elem_of_nil in Hin|].
    by exists (m :: ms).
Qed.

Lemma generate_module_is_listed_witness :
  ∃ w',
    generate_module "payments" (World modules_disk []) = (Ok tt, w')
    ∧ ∃ ms, ModuleManager.get_available_modules ModuleManager.default w' = (Ok ms, w')
            ∧ "payments" ∈ ms.
Proof.
  destruct (generate_module_is_listed "payments" (World modules_disk []))
    as (w' & Hrun & _ & _ & _ & Hlisted).
  - apply wf_check. vm_compute. reflexivity.
  - reflexivity.
  - reflexivity.
  - exists w'. split; [exact Hrun|]. apply Hlisted. discriminate.
Defined.

(** X13.  [generate_module] can be repeated: after a successful call, the
    same call succeeds again, prints its message again and leaves the disk
    as it is (where the generators of services and DTOs refuse a second
    run). *)
Theorem generate_module_again name w w' :
  generate_module name w = (Ok tt, w') →
  generate_module name w'
  = (Ok tt, World (disk w')
              (console w' ++ ["[bold green]✅ Módulo criado com sucesso![/bold green]"])).
Proof.
  unfold generate_module.
  destruct (mkdir (Path.of_string ("src/modules/" +:+ name)) w) as [[[]|e] w1] eqn:Hmk;
    erewrite bind_run by done; cbv beta iota; [|done].
  intros [= <-]. apply mkdir_ok_all_dirs in Hmk. cbn [disk console].
  erewrite bind_run; last first.
  { apply mkdir_all_dirs_noop. exact Hmk. }
  done.
Qed.

Lemma generate_module_again_witness :
  let w' := (generate_module "billing" (World [] [])).2 in
  generate_module "billing" w'
  = (Ok tt, World (disk w')
              (console w' ++ ["[bold green]✅ Módulo criado com sucesso![/bold green]"])).
Proof.
  intros w'. apply (generate_module_again "billing" (World [] []) w').
  vm_compute. reflexivity.
Defined.

(** ** [get_service_config] *)

Lemma int_run T s w :
  int T s w = match int_ T s with
              | Some n => (Ok n, w)
              | None => (Raised (Exn ValueError (int_error T s)), w)
              end.
Proof. unfold int. by destruct (int_ T s). Qed.

Lemma index_in_range (i n : Z) :
  (i <? 0)%Z || (i >=? n)%Z = false ↔ (0 ≤ i < n)%Z.
Proof.
  rewrite orb_false_iff, Z.ltb_ge, Z.geb_leb, Z.leb_gt. lia.
Qed.

Lemma index_out_of_range (i n : Z) :
  (i <? 0)%Z || (i >=? n)%Z = true ↔ (i < 0 ∨ n ≤ i)%Z.
Proof.
  rewrite orb_true_iff, Z.ltb_lt, Z.geb_leb, Z.leb_le. lia.
Qed.

Lemma service_type_at (i : Z) :
  (i <? 0)%Z || (i >=? Z.of_nat (List.length service_types))%Z = false →
  default "" (service_types !! Z.to_nat i) ∈ service_types
  ∧ (default "" (service_types !! Z.to_nat i) = "shared" ↔ i = 3%Z).
Proof.
  intros Hi%index_in_range. cbn in Hi.
  assert (i = 0 ∨ i = 1 ∨ i = 2 ∨ i = 3)%Z as Hcases by lia.
  destruct Hcases as [-> | [-> | [-> | ->]]];
    (split; [cbn; repeat constructor | by split]).
Qed.

Lemma module_at (ms : list string) (j : Z) :
  (j <? 0)%Z || (j >=? Z.of_nat (List.length ms))%Z = false →
  default "" (ms !! Z.to_nat j) ∈ ms.
Proof.
  intros Hj%index_in_range.
  destruct (ms !! Z.to_nat j) as [m|] eqn:Hm.
  - by eapply list_elem_of_lookup_2.
  - apply lookup_ge_None in Hm. lia.
Qed.

Lemma print_run s w : print s w = (Ok tt, shown s w).
Proof. reflexivity. Qed.

(** The first steps of [get_service_config]: the panel, the first answer
    and its reading as a number. *)
Lemma get_service_config_begins T w a w2 :
  ask T type_prompt (Some "1") None (shown (types_panel T) w) = (Ok a, w2) →
  get_service_config T w =
    match int_ T a with
    | None => (Raised (Exn ValueError (int_error T a)), w2)
    | Some n =>
        if (n - 1 <? 0)%Z || (n - 1 >=? Z.of_nat (List.length service_types))%Z
        then (Raised (Exn ValueError "❌ Tipo de serviço inválido"), w2)
        else
          let selected_type := default "" (service_types !! Z.to_nat (n - 1)) in
          (service_name ← ask T name_prompt None None;
           if bool_decide (selected_type = "shared")
           then
             create_dtos ← ask_create_dtos T;
             mret (ServiceConfig.mk service_name "shared" selected_type create_dtos)
           else
             available_modules ← ModuleManager.get_available_modules ModuleManager.default;
             _ ← print (modules_panel T available_modules);
             answer ← ask T module_prompt (Some "1") None;
             n ← int T answer;
             if (n - 1 <? 0)%Z || (n - 1 >=? Z.of_nat (List.length available_modules))%Z
             then raise (Exn ValueError "❌ Módulo inválido")
             else
               create_dtos ← ask_create_dtos T;
               mret (ServiceConfig.mk service_name
                       (default "" (available_modules !! Z.to_nat (n - 1)))
                       selected_type create_dtos)) w2
    end.
Proof.
  intros Hask. unfold get_service_config.
  erewrite bind_run by apply print_run; cbv beta iota.
  erewrite bind_run by exact Hask; cbv beta iota.
  destruct (int_ T a) as [n|] eqn:Hint.
  - erewrite bind_run by (by rewrite int_run, Hint). cbv beta iota zeta.
    by destruct (_ || _).
  - by erewrite bind_run by (by rewrite int_run, Hint).
Qed.

Lemma ask_create_dtos_run T w r w' :
  ask T dtos_prompt (Some "s") (Some ["s"; "n"]) w = (r, w') →
  ask_create_dtos T w =
    match r with
    | Ok answer => (Ok (bool_decide (answer = "s")), w')
    | Raised e => (Raised e, w')
    end.
Proof.
  intros Hask. unfold ask_create_dtos. erewrite bind_run by exact Hask. by destruct r.
Qed.

(** X14.  The number of the layer is checked before anything else is
    asked: when the first answer is not a number, [get_service_config]
    raises the [ValueError] of [int]; when it is a number outside 1..4, it
    raises [ValueError] with its own message.  In both cases the world is
    the one the first answer left: the name is not asked and the disk is
    not read. *)
Theorem layer_number_is_checked T w a w2 :
  ask T type_prompt (Some "1") None (shown (types_panel T) w) = (Ok a, w2) →
  (int_ T a = None →
   get_service_config T w = (Raised (Exn ValueError (int_error T a)), w2))
  ∧ (∀ n, int_ T a = Some n → (n < 1 ∨ 4 < n)%Z →
          get_service_config T w
          = (Raised (Exn ValueError "❌ Tipo de serviço inválido"), w2)).
Proof.
  intros Hask. rewrite (get_service_config_begins _ _ _ _ Hask). split.
  - by intros ->.
  - intros n -> Hn.
    rewrite (proj2 (index_out_of_range _ _)); [done|]. cbn. lia.
Qed.

Lemma layer_number_is_checked_witness :
  get_service_config (sample_terminal [(type_prompt, "7")]) (World modules_disk [])
  = (Raised (Exn ValueError "❌ Tipo de serviço inválido"),
     shown (types_panel (sample_terminal [(type_prompt, "7")])) (World modules_disk [])).
Proof.
  apply (proj2 (layer_number_is_checked (sample_terminal [(type_prompt, "7")])
                  (World modules_disk []) "7"
                  (shown (types_panel (sample_terminal [(type_prompt, "7")]))
                     (World modules_disk [])) eq_refl) 7%Z).
  - reflexivity.
  - lia.
Defined.

(** X15.  A shared service needs no module: when the layer chosen is the
    fourth, [get_service_config] asks the name and the DTO question and
    returns the configuration with module [shared] and type [shared],
    without reading the catalog of modules, whatever the disk holds.  The
    DTOs are created exactly when the answer is [s]. *)
Theorem shared_needs_no_module T w a w2 name w3 answer w4 :
  ask T type_prompt (Some "1") None (shown (types_panel T) w) = (Ok a, w2) →
  int_ T a = Some 4%Z →
  ask T name_prompt None None w2 = (Ok name, w3) →
  ask T dtos_prompt (Some "s") (Some ["s"; "n"]) w3 = (Ok answer, w4) →
  get_service_config T w
  = (Ok (ServiceConfig.mk name "shared" "shared" (bool_decide (answer = "s"))), w4).
Proof.
  intros Hask Hint Hname Hdtos.
  rewrite (get_service_config_begins _ _ _ _ Hask), Hint. cbn [orb]. cbv beta iota zeta.
  change (default "" (service_types !! Z.to_nat (4 - 1))) with "shared".
  change ((4 - 1 <? 0)%Z || (4 - 1 >=? Z.of_nat (List.length service_types))%Z) with false.
  cbv beta iota. erewrite bind_run by exact Hname; cbv beta iota.
  rewrite bool_decide_eq_true_2 by done.
  erewrite bind_run by (by rewrite (ask_create_dtos_run _ _ _ _ Hdtos)). done.
Qed.

Lemma shared_needs_no_module_witness :
  let T := sample_terminal [(type_prompt, "4"); (name_prompt, "mailer"); (dtos_prompt, "n")] in
  get_service_config T (World [] [])
  = (Ok (ServiceConfig.mk "mailer" "shared" "shared" false), shown (types_panel T) (World [] [])).
Proof.
  intros T.
  set (w2 := shown (types_panel T) (World [] [])).
  apply (shared_needs_no_module T (World [] []) "4" w2 "mailer" w2 "n" w2); reflexivity.
Defined.

(** [get_service_config] once one of the first three layers is chosen and
    the name is given. *)
Lemma get_service_config_in_a_module T w a w2 n name w3 :
  ask T type_prompt (Some "1") None (shown (types_panel T) w) = (Ok a, w2) →
  int_ T a = Some n → (1 ≤ n ≤ 3)%Z →
  ask T name_prompt None None w2 = (Ok name, w3) →
  let selected_type := default "" (service_types !! Z.to_nat (n - 1)) in
  selected_type ≠ "shared"
  ∧ get_service_config T w =
      (available_modules ← ModuleManager.get_available_modules ModuleManager.default;
       _ ← print (modules_panel T available_modules);
       answer ← ask T module_prompt (Some "1") None;
       n ← int T answer;
       if (n - 1 <? 0)%Z || (n - 1 >=? Z.of_nat (List.length available_modules))%Z
       then raise (Exn ValueError "❌ Módulo inválido")
       else
         create_dtos ← ask_create_dtos T;
         mret (ServiceConfig.mk name
                 (default "" (available_modules !! Z.to_nat (n - 1)))
                 selected_type create_dtos)) w3.
Proof.
  intros Hask Hint Hn Hname selected_type.
  assert ((n - 1 <? 0)%Z || (n - 1 >=? Z.of_nat (List.length service_types))%Z = false)
    as Hrange by (apply index_in_range; cbn; lia).
  destruct (service_type_at _ Hrange) as [_ Hshared].
  assert (selected_type ≠ "shared") as Hne by (intros ?%Hshared; lia).
  split; [done|].
  rewrite (get_service_config_begins _ _ _ _ Hask), Hint, Hrange. cbv beta iota zeta.
  erewrite bind_run by exact Hname; cbv beta iota.
  fold selected_type. by rewrite bool_decide_eq_false_2.
Qed.

(** X16.  In the first three layers the module is chosen from the catalog.
    When [get_available_modules] fails, its exception is the outcome and
    the module is not asked; when the answer is a number outside
    1..[len(available_modules)], [ValueError] is raised with the message of
    the module check; when it is a number [j] inside, the configuration has
    the [j]-th module of the catalog, the layer chosen and the name typed. *)
Theorem module_number_selects T w a w2 n name w3 :
  ask T type_prompt (Some "1") None (shown (types_panel T) w) = (Ok a, w2) →
  int_ T a = Some n → (1 ≤ n ≤ 3)%Z →
  ask T name_prompt None None w2 = (Ok name, w3) →
  (∀ e w4,
     ModuleManager.get_available_modules ModuleManager.default w3 = (Raised e, w4) →
     get_service_config T w = (Raised e, w4))
  ∧ (∀ ms a2 w5 j,
       ModuleManager.get_available_modules ModuleManager.default w3 = (Ok ms, w3) →
       ask T module_prompt (Some "1") None (shown (modules_panel T ms) w3) = (Ok a2, w5) →
       int_ T a2 = Some j →
       ((j < 1 ∨ Z.of_nat (List.length ms) < j)%Z →
        get_service_config T w = (Raised (Exn ValueError "❌ Módulo inválido"), w5))
       ∧ (∀ m answer w6,
            (1 ≤ j)%Z → ms !! Z.to_nat (j - 1) = Some m →
            ask T dtos_prompt (Some "s") (Some ["s"; "n"]) w5 = (Ok answer, w6) →
            get_service_config T w
            = (Ok (ServiceConfig.mk name m
                     (default "" (service_types !! Z.to_nat (n - 1)))
                     (bool_decide (answer = "s"))), w6))).
Proof.
  intros Hask Hint Hn Hname.
  destruct (get_service_config_in_a_module _ _ _ _ _ _ _ Hask Hint Hn Hname) as [_ ->].
  split.
  - intros e w4 Hcat. by erewrite bind_run by exact Hcat.
  - intros ms a2 w5 j Hcat Hask2 Hint2.
    erewrite bind_run by exact Hcat; cbv beta iota.
    erewrite bind_run by apply print_run; cbv beta iota.
    erewrite bind_run by exact Hask2; cbv beta iota.
    erewrite bind_run by (by rewrite int_run, Hint2). cbv beta iota. split.
    + intros Hj. rewrite (proj2 (index_out_of_range _ _)); [done | lia].
    + intros m answer w6 Hj Hm Hdtos.
      rewrite (proj2 (index_in_range _ _)); last first.
      { apply lookup_lt_Some in Hm. lia. }
      erewrite bind_run by (by rewrite (ask_create_dtos_run _ _ _ _ Hdtos)).
      cbv beta iota. by rewrite Hm.
Qed.

Lemma module_number_selects_witness :
  let T := sample_terminal [(type_prompt, "2"); (name_prompt, "invoice"); (module_prompt, "2")] in
  ∃ w6,
    get_service_config T (World modules_disk [])
    = (Ok (ServiceConfig.mk "invoice" "inventory" "application" true), w6).
Proof.
  intros T.
  set (w2 := shown (types_panel T) (World modules_disk [])).
  set (w5 := shown (modules_panel T ["billing"; "inventory"]) w2).
  exists w5.
  destruct (module_number_selects T (World modules_disk []) "2" w2 2%Z "invoice" w2
              eq_refl eq_refl ltac:(lia) eq_refl) as [_ Hpick].
  destruct (Hpick ["billing"; "inventory"] "2" w5 2%Z) as [_ Hin];
    [vm_compute; reflexivity | reflexivity | reflexivity |].
  apply (Hin "inventory" "s" w5); [lia | reflexivity | reflexivity].
Defined.

Lemma ask_keeps_disk T prompt d c w r w' :
  answers_off_disk T → ask T prompt d c w = (r, w') → disk w' = disk w.
Proof. intros Hoff Heq. specialize (Hoff prompt d c w). by rewrite Heq in Hoff. Qed.

(** X17.  Every configuration [get_service_config] returns has one of the
    four layers, and its module is [shared] exactly when its layer is
    [shared]: the module of another layer comes from the catalog, which
    hides [shared].  With an operator who leaves the disk alone while
    answering, that module is a directory of the modules root. *)
Theorem config_module_matches_layer T w config w' :
  answers_off_disk T →
  get_service_config T w = (Ok config, w') →
  ServiceConfig.type config ∈ service_types
  ∧ (ServiceConfig.type config = "shared" ↔ ServiceConfig.module config = "shared")
  ∧ (ServiceConfig.type config ≠ "shared" →
     lookup_path (disk w) (["src"; "modules"] ++ [ServiceConfig.module config])
     = Some Dir).
Proof.
  intros Hoff.
  destruct (ask T type_prompt (Some "1") None (shown (types_panel T) w))
    as [[a|e] w2] eqn:Hask.
  2:{ unfold get_service_config. erewrite bind_run by apply print_run; cbv beta iota.
      by erewrite bind_run by exact Hask. }
  rewrite (get_service_config_begins _ _ _ _ Hask).
  apply (ask_keeps_disk _ _ _ _ _ _ _ Hoff) in Hask. cbn [shown disk] in Hask.
  destruct (int_ T a) as [n|]; [|done].
  destruct (_ || _) eqn:Hrange; [done|]. cbv beta iota zeta.
  destruct (service_type_at _ Hrange) as [Hlayer Hshared].
  destruct (ask T name_prompt None None w2) as [[name|e] w3] eqn:Hname;
    erewrite bind_run by exact Hname; cbv beta iota; [|done].
  apply (ask_keeps_disk _ _ _ _ _ _ _ Hoff) in Hname.
  case_bool_decide as Hsel.
  - destruct (ask T dtos_prompt (Some "s") (Some ["s"; "n"]) w3) as [[answer|e] w4] eqn:Hd;
      erewrite bind_run by (by rewrite (ask_create_dtos_run _ _ _ _ Hd)); [|done].
    intros [= <- <-]. cbn [ServiceConfig.type ServiceConfig.module]. by split_and!.
  - destruct (ModuleManager.get_available_modules ModuleManager.default w3)
      as [[ms|e] w4] eqn:Hcat; erewrite bind_run by exact Hcat; cbv beta iota; [|done].
    apply get_available_modules_ok in Hcat as (-> & _ & Hms).
    erewrite bind_run by apply print_run; cbv beta iota.
    destruct (ask T module_prompt (Some "1") None (shown (modules_panel T ms) w3))
      as [[a2|e] w5] eqn:Hask2; erewrite bind_run by exact Hask2; cbv beta iota; [|done].
    destruct (int_ T a2) as [j|] eqn:Hint2;
      erewrite bind_run by (by rewrite int_run, Hint2); cbv beta iota; [|done].
    destruct ((j - 1 <? 0)%Z || (j - 1 >=? Z.of_nat (List.length ms))%Z) eqn:Hrange2;
      [done|]. cbv beta iota.
    pose proof (module_at _ _ Hrange2) as Hin.
    destruct (ask T dtos_prompt (Some "s") (Some ["s"; "n"]) w5) as [[answer|e] w6] eqn:Hd;
      erewrite bind_run by (by rewrite (ask_create_dtos_run _ _ _ _ Hd)); [|done].
    intros [= <- <-]. cbn [ServiceConfig.type ServiceConfig.module].
    assert (lookup_path (disk w3)
              (ModuleManager.base_path ModuleManager.default
               ++ [default "" (ms !! Z.to_nat (j - 1))]) = Some Dir
            ∧ default "" (ms !! Z.to_nat (j - 1)) ≠ "shared") as [Hdir Hne]
      by (apply listed_sound; by rewrite <-Hms).
    split_and!; [done| |].
    + by split.
    + intros _. by rewrite <-Hask, <-Hname.
Qed.

Lemma sample_terminal_off_disk script : answers_off_disk (sample_terminal script).
Proof. by intros prompt d c w. Qed.

Lemma config_module_matches_layer_witness :
  let T := sample_terminal [(type_prompt, "2"); (name_prompt, "invoice"); (module_prompt, "2")] in
  ("application" ∈ service_types)
  ∧ ("application" = "shared" ↔ "inventory" = "shared")
  ∧ ("application" ≠ "shared" →
     lookup_path modules_disk (["src"; "modules"] ++ ["inventory"]) = Some Dir).
Proof.
  intros T.
  apply (config_module_matches_layer T (World modules_disk [])
           (ServiceConfig.mk "invoice" "inventory" "application" true)
           (shown (modules_panel T ["billing"; "inventory"])
              (shown (types_panel T) (World modules_disk [])))).
  - apply sample_terminal_off_disk.
  - vm_compute. reflexivity.
Defined.

(** X18.  [get_service_config] does not write: with an operator who leaves
    the disk alone while answering, the disk after the call is the disk
    before it, whether a configuration is returned or an exception raised. *)
Theorem get_service_config_only_reads T w :
  answers_off_disk T →
  disk (get_service_config T w).2 = disk w.
Proof.
  intros Hoff.
  pose proof (λ prompt d c w0 r w1, ask_keeps_disk T prompt d c w0 r w1 Hoff) as Hask.
  destruct (ask T type_prompt (Some "1") None (shown (types_panel T) w))
    as [[a|e] w2] eqn:Hask1.
  2:{ unfold get_service_config. erewrite bind_run by apply print_run; cbv beta iota.
      erewrite bind_run by exact Hask1. by apply Hask in Hask1. }
  rewrite (get_service_config_begins _ _ _ _ Hask1). apply Hask in Hask1.
  cbn [shown disk] in Hask1.
  destruct (int_ T a) as [n|]; [|done].
  destruct (_ || _); [done|]. cbv beta iota zeta.
  destruct (ask T name_prompt None None w2) as [[name|e] w3] eqn:Hname;
    erewrite bind_run by exact Hname; cbv beta iota; apply Hask in Hname;
    [|cbn [snd]; congruence].
  case_bool_decide as Hsel.
  - destruct (ask T dtos_prompt (Some "s") (Some ["s"; "n"]) w3) as [[answer|e] w4] eqn:Hd;
      erewrite bind_run by (by rewrite (ask_create_dtos_run _ _ _ _ Hd));
      apply Hask in Hd; cbn; congruence.
  - destruct (ModuleManager.get_available_modules ModuleManager.default w3)
      as [[ms|e] w4] eqn:Hcat; erewrite bind_run by exact Hcat; cbv beta iota.
    2:{ pose proof (get_available_modules_world ModuleManager.default w3) as Hsame.
        rewrite Hcat in Hsame. cbn [snd] in *. congruence. }
    apply get_available_modules_ok in Hcat as (-> & _ & _).
    erewrite bind_run by apply print_run; cbv beta iota.
    destruct (ask T module_prompt (Some "1") None (shown (modules_panel T ms) w3))
      as [[a2|e] w5] eqn:Hask2; erewrite bind_run by exact Hask2; cbv beta iota;
      apply Hask in Hask2; cbn [shown disk] in Hask2; [|cbn [snd]; congruence].
    destruct (int_ T a2) as [j|] eqn:Hint2;
      erewrite bind_run by (by rewrite int_run, Hint2); cbv beta iota;
      [|cbn [snd]; congruence].
    destruct ((j - 1 <? 0)%Z || (j - 1 >=? Z.of_nat (List.length ms))%Z);
      [cbn; congruence|]. cbv beta iota.
    destruct (ask T dtos_prompt (Some "s") (Some ["s"; "n"]) w5) as [[answer|e] w6] eqn:Hd;
      erewrite bind_run by (by rewrite (ask_create_dtos_run _ _ _ _ Hd));
      apply Hask in Hd; cbn; congruence.
Qed.

Lemma get_service_config_only_reads_witness :
  disk (get_service_config
          (sample_terminal [(type_prompt, "2"); (name_prompt, "invoice"); (module_prompt, "9")])
          (World modules_disk [])).2
  = modules_disk.
Proof.
  apply (get_service_config_only_reads
           (sample_terminal [(type_prompt, "2"); (name_prompt, "invoice"); (module_prompt, "9")])
           (World modules_disk [])).
  apply sample_terminal_off_disk.
Defined.

(** ** The command [generate_service] *)

Lemma created_lines_differ dto svc : dtos_created dto ≠ service_created svc.
Proof. unfold dtos_created, service_created. cbn. discriminate. Qed.

Lemma reported_is_not_service_created e svc : reported e ≠ service_created svc.
Proof. unfold reported, service_created. cbn. discriminate. Qed.

Lemma reported_is_not_dtos_created e dto : reported e ≠ dtos_created dto.
Proof. unfold reported, dtos_created. cbn. discriminate. Qed.

(** X19.  The command writes nowhere but at the files of the configuration
    it was given.  When reading the configuration fails, the command ends on
    the disk that reading left: nothing is made and nothing is written.
    When a configuration is read whose directories and files are paths
    without [".."] (the system then writes where the paths say), then from
    the disk on which it was read to the disk on which the command ends,
    whatever the outcome, every regular file other than the service file
    and, when DTOs are asked for, the three DTO files keeps its text, no
    regular file appears elsewhere, directories stay directories and nothing
    is removed. *)
Theorem generate_service_touches_only env cfg w r w1 :
  cfg w = (r, w1) →
  match r with
  | Ok config =>
      forallb direct (touched env config) = true →
      touches_only (targets env config) (disk w1) (disk (generate_service env cfg w).2)
  | Raised _ => disk (generate_service env cfg w).2 = disk w1
  end.
Proof.
  intros Hcfg. unfold generate_service, try_except.
  erewrite bind_run by exact Hcfg.
  destruct r as [config|e]; [|by case_bool_decide].
  intros _. cbv beta iota zeta.
  set (module_path := ModuleManager.get_module_path _ _).
  set (dto := DTOGenerator.make _ _ _). set (svc := ServiceGenerator.make _ _ _).
  assert (∀ ps classes w2,
            ServiceGenerator.service_file svc ∈ ps →
            touches_only ps (disk w2)
              (disk (match
                       (_ ← ServiceGenerator.generate svc classes.1 classes.2;
                        print (service_created svc)) w2
                     with
                     | (Ok a, w') => (Ok a, w')
                     | (Raised e, w') =>
                         if bool_decide (kind e ∈ [FileNotFoundError; FileExistsError; ValueError])
                         then print ("[bold red]" +:+ message e +:+ "[/bold red]") w'
                         else (Raised e, w')
                     end).2)) as Hlast.
  { intros ps classes w2 Hps.
    destruct (ServiceGenerator.generate svc classes.1 classes.2 w2) as [r3 w3] eqn:Hsvc.
    destruct (service_generate_frame ps svc classes.1 classes.2 w2 Hps) as [Hf _].
    rewrite Hsvc in Hf. cbn [snd] in Hf.
    erewrite bind_run by exact Hsvc.
    destruct r3 as [[]|e]; [done|]. by case_bool_decide. }
  unfold targets. fold module_path dto svc.
  destruct (ServiceConfig.create_dtos config).
  - set (ps := _ ++ _).
    destruct (DTOGenerator.generate dto w1) as [r2 w2] eqn:Hdto.
    destruct (dto_generate_frame ps dto w1) as [Hf _].
    { intros q Hq. apply elem_of_app. by left. }
    rewrite Hdto in Hf. cbn [snd] in Hf.
    destruct r2 as [classes|e].
    + erewrite bind_run; last first.
      { erewrite bind_run by exact Hdto; cbv beta iota.
        by erewrite bind_run by apply print_run. }
      cbv beta iota. eapply touches_only_trans; [exact Hf|].
      apply (Hlast ps classes (shown _ w2)). apply elem_of_app. right. by left.
    + erewrite bind_run; last first.
      { by erewrite bind_run by exact Hdto. }
      cbv beta iota. by case_bool_decide.
  - erewrite bind_run by reflexivity; cbv beta iota.
    apply (Hlast _ ("", "") w1). by left.
Qed.

Lemma generate_service_touches_only_witness :
  let T := sample_terminal [(type_prompt, "2"); (name_prompt, "invoice"); (module_prompt, "2")] in
  let config := ServiceConfig.mk "invoice" "inventory" "application" true in
  touches_only (targets sample_env config) modules_disk
    (disk (generate_service sample_env (get_service_config T) (World modules_disk [])).2).
Proof.
  intros T config.
  apply (generate_service_touches_only sample_env (get_service_config T)
           (World modules_disk []) (Ok config)
           (shown (modules_panel T ["billing"; "inventory"])
              (shown (types_panel T) (World modules_disk [])))).
  - vm_compute. reflexivity.
  - reflexivity.
Defined.

(** The run of the command once the configuration is read. *)
Lemma generate_service_run env cfg w config w1 :
  cfg w = (Ok config, w1) →
  let module_path :=
    ModuleManager.get_module_path ModuleManager.default (ServiceConfig.module config) in
  let dto :=
    DTOGenerator.make module_path (ServiceConfig.name config) (ServiceConfig.type config) in
  let svc := ServiceGenerator.make env module_path config in
  let report (e : exn) (w0 : world) : result unit * world :=
    if bool_decide (kind e ∈ [FileNotFoundError; FileExistsError; ValueError])
    then (Ok tt, shown (reported e) w0) else (Raised e, w0) in
  let finish (classes : string * string) (w2 : world) : result unit * world :=
    match ServiceGenerator.generate svc classes.1 classes.2 w2 with
    | (Ok _, w3) => (Ok tt, shown (service_created svc) w3)
    | (Raised e, w3) => report e w3
    end in
  generate_service env cfg w =
    if ServiceConfig.create_dtos config
    then match DTOGenerator.generate dto w1 with
         | (Ok classes, w2) => finish classes (shown (dtos_created dto) w2)
         | (Raised e, w2) => report e w2
         end
    else finish ("", "") w1.
Proof.
  intros Hcfg module_path dto svc report finish.
  assert (∀ classes w2,
            try_except
              (_ ← ServiceGenerator.generate svc classes.1 classes.2;
               print (service_created svc))
              [FileNotFoundError; FileExistsError; ValueError]
              (λ e, print (reported e)) w2
            = finish classes w2) as Hfinish.
  { intros classes w2. unfold finish, try_except.
    destruct (ServiceGenerator.generate svc classes.1 classes.2 w2) as [[[]|e] w3] eqn:Hsvc;
      by erewrite bind_run by exact Hsvc. }
  unfold generate_service, try_except in *.
  erewrite bind_run by exact Hcfg. cbv beta iota zeta. fold module_path dto svc.
  destruct (ServiceConfig.create_dtos config).
  - destruct (DTOGenerator.generate dto w1) as [[classes|e] w2] eqn:Hdto.
    + erewrite bind_run; last first.
      { erewrite bind_run by exact Hdto; cbv beta iota.
        by erewrite bind_run by apply print_run. }
      cbv beta iota. apply Hfinish.
    + erewrite bind_run; last first.
      { by erewrite bind_run by exact Hdto. }
      done.
  - erewrite bind_run by reflexivity; cbv beta iota. apply (Hfinish ("", "") w1).
Qed.

(** X20.  The command reports what it did.  The lines it prints after the
    configuration is read are such that: the line [Service criado em ...]
    is there only when the command returned normally and the service file is
    a regular file of the disk it leaves; the line [DTOs criados em ...] is
    there only when DTOs were asked for and the three DTO files are on that
    disk; and a command that returns normally has ended either on the line
    of the service or on the red line of an exception it caught, never in
    silence. *)
Theorem success_lines_are_true env cfg w config w1 :
  cfg w = (Ok config, w1) →
  let module_path :=
    ModuleManager.get_module_path ModuleManager.default (ServiceConfig.module config) in
  let dto :=
    DTOGenerator.make module_path (ServiceConfig.name config) (ServiceConfig.type config) in
  let svc := ServiceGenerator.make env module_path config in
  let r' := (generate_service env cfg w).1 in
  let w' := (generate_service env cfg w).2 in
  ∃ lines,
    console w' = console w1 ++ lines
    ∧ (service_created svc ∈ lines →
       r' = Ok tt
       ∧ ∃ content, stat (disk w') (ServiceGenerator.service_file svc) = Some (File content))
    ∧ (dtos_created dto ∈ lines →
       ServiceConfig.create_dtos config = true
       ∧ path_exists (disk w') (DTOGenerator.request_file dto) = true
       ∧ path_exists (disk w') (DTOGenerator.response_file dto) = true
       ∧ path_exists (disk w') (DTOGenerator.init_file dto) = true)
    ∧ (r' = Ok tt →
       List.last lines "" = service_created svc
       ∨ ∃ e, kind e ∈ [FileNotFoundError; FileExistsError; ValueError]
              ∧ List.last lines "" = reported e).
Proof.
  intros Hcfg module_path dto svc r' w'. subst r' w'.
  rewrite (generate_service_run env cfg w config w1 Hcfg). cbv zeta.
  fold module_path dto svc.
  assert (∀ classes w2 pre,
            console w2 = console w1 ++ pre →
            (∀ s, s ∈ pre → s = dtos_created dto) →
            let out :=
              match ServiceGenerator.generate svc classes.1 classes.2 w2 with
              | (Ok _, w3) => (Ok tt, shown (service_created svc) w3)
              | (Raised e, w3) =>
                  if bool_decide (kind e ∈ [FileNotFoundError; FileExistsError; ValueError])
                  then (Ok tt, shown (reported e) w3) else (Raised e, w3)
              end in
            touches_only [ServiceGenerator.service_file svc] (disk w2) (disk out.2)
            ∧ ∃ post,
                console out.2 = console w1 ++ pre ++ post
                ∧ (∀ s, s ∈ post → s ≠ dtos_created dto)
                ∧ (service_created svc ∈ post →
                   out.1 = Ok tt
                   ∧ ∃ content,
                       stat (disk out.2) (ServiceGenerator.service_file svc)
                       = Some (File content))
                ∧ (out.1 = Ok tt →
                   List.last (pre ++ post) "" = service_created svc
                   ∨ ∃ e, kind e ∈ [FileNotFoundError; FileExistsError; ValueError]
                          ∧ List.last (pre ++ post) "" = reported e)) as Hfinish.
  { intros classes w2 pre Hpre Hdto out. subst out.
    destruct (service_generate_frame [ServiceGenerator.service_file svc] svc
                classes.1 classes.2 w2) as [Hf Hc]; [by left|].
    destruct (ServiceGenerator.generate svc classes.1 classes.2 w2) as [[[]|e] w3] eqn:Hsvc;
      cbn [snd] in Hf, Hc.
    - split; [done|]. exists [service_created svc]. cbn [fst snd shown console disk].
      split_and!.
      + by rewrite Hc, Hpre, <-app_assoc.
      + intros s ->%list_elem_of_singleton Heq. by eapply created_lines_differ.
      + intros _. split; [done|]. by destruct (service_generate_ok _ _ _ _ _ Hsvc) as [_ ?].
      + intros _. left. by rewrite last_last.
    - case_bool_decide as Hk.
      + split; [done|]. exists [reported e]. cbn [fst snd shown console disk].
        split_and!.
        * by rewrite Hc, Hpre, <-app_assoc.
        * intros s ->%list_elem_of_singleton. apply reported_is_not_dtos_created.
        * intros Hin%list_elem_of_singleton. by destruct (reported_is_not_service_created e svc).
        * intros _. right. exists e. by rewrite last_last.
      + split; [done|]. exists []. cbn [fst snd].
        split_and!.
        * by rewrite Hc, Hpre, app_nil_r.
        * by intros s ?%elem_of_nil.
        * by intros ?%elem_of_nil.
        * done. }
  destruct (ServiceConfig.create_dtos config) eqn:Hd.
  - destruct (dto_generate_frame [DTOGenerator.request_file dto; DTOGenerator.response_file dto;
                                  DTOGenerator.init_file dto] dto w1) as [_ Hc]; [done|].
    destruct (DTOGenerator.generate dto w1) as [[classes|e] w2] eqn:Hdto; cbn [snd] in Hc.
    + destruct (dto_generate_ok _ _ _ _ Hdto) as (H1 & H2 & H3).
      destruct (Hfinish classes (shown (dtos_created dto) w2) [dtos_created dto])
        as [(_ & _ & Hkeep) (post & Hout & Hpost & Hsvc & Hend)].
      { cbn [shown console]. by rewrite Hc. }
      { by intros s ->%list_elem_of_singleton. }
      exists ([dtos_created dto] ++ post). split_and!; [done| | |done].
      * intros [Hin|Hin]%elem_of_app; [|by apply Hsvc].
        apply list_elem_of_singleton in Hin. by destruct (created_lines_differ dto svc).
      * intros _. split; [done|].
        split_and!; apply Hkeep; cbn [shown disk]; apply path_exists_stat; by eexists.
    + case_bool_decide as Hk; cbn [fst snd shown console disk].
      * exists [reported e]. split_and!.
        -- by rewrite Hc.
        -- intros Hin%list_elem_of_singleton. by destruct (reported_is_not_service_created e svc).
        -- intros Hin%list_elem_of_singleton. by destruct (reported_is_not_dtos_created e dto).
        -- intros _. right. by exists e.
      * exists []. split_and!; [by rewrite Hc, app_nil_r|by intros ?%elem_of_nil..|done].
  - destruct (Hfinish ("", "") w1 []) as [_ (post & Hout & Hpost & Hsvc & Hend)].
    { by rewrite app_nil_r. }
    { by intros s ?%elem_of_nil. }
    exists post. split_and!; [done|done| |done].
    intros Hin. by apply Hpost in Hin.
Qed.

Lemma success_lines_are_true_witness :
  let T := sample_terminal [(type_prompt, "2"); (name_prompt, "invoice"); (module_prompt, "2")] in
  let run := generate_service sample_env (get_service_config T) (World modules_disk []) in
  run.1 = Ok tt
  ∧ stat (disk run.2) ["src"; "modules"; "inventory"; "services"; "application";
                        "invoice_service.py"]
    = Some (File (import_line (ServiceConfig.mk "invoice" "inventory" "application" true)
                    "InvoiceRequestDto" "InvoiceResponseDto"
                  +:+ nl +:+ nl
                  +:+ sample_template "application_service.j2" "Invoice"
                        "InvoiceRequestDto" "InvoiceResponseDto"))
  ∧ ∃ lines,
      console run.2
      = console (shown (modules_panel T ["billing"; "inventory"])
                   (shown (types_panel T) (World modules_disk []))) ++ lines
      ∧ (List.last lines ""
         = service_created
             (ServiceGenerator.make sample_env ["src"; "modules"; "inventory"]
                (ServiceConfig.mk "invoice" "inventory" "application" true))
         ∨ ∃ e, kind e ∈ [FileNotFoundError; FileExistsError; ValueError]
                ∧ List.last lines "" = reported e).
Proof.
  intros T run.
  destruct (success_lines_are_true sample_env (get_service_config T) (World modules_disk [])
              (ServiceConfig.mk "invoice" "inventory" "application" true)
              (shown (modules_panel T ["billing"; "inventory"])
                 (shown (types_panel T) (World modules_disk []))))
    as (lines & Hout & _ & _ & Hend).
  { vm_compute. reflexivity. }
  split; [vm_compute; reflexivity|]. split; [vm_compute; reflexivity|].
  exists lines. split; [exact Hout|]. apply Hend. vm_compute. reflexivity.
Defined.

(** The check of [ServiceGenerator.generate] alone: on a disk that has the
    service directory and the service file, the call stops there. *)
Lemma service_generate_stops g request_class response_class w n :
  all_dirs (disk w) [] (ServiceGenerator.service_dir g) →
  stat (disk w) (ServiceGenerator.service_file g) = Some n →
  ServiceGenerator.generate g request_class response_class w
  = (Raised (ServiceGenerator.duplicate g), w).
Proof.
  intros Hdirs Hfile. unfold ServiceGenerator.generate.
  erewrite bind_run by (by apply mkdir_all_dirs_noop); cbv beta iota.
  erewrite bind_run by reflexivity; cbv beta iota.
  by rewrite (proj2 (path_exists_stat _ _) (ex_intro _ n Hfile)).
Qed.

Lemma all_dirs_kept ps d d' base todo :
  touches_only ps d d' → all_dirs d base todo → all_dirs d' base todo.
Proof. intros (_ & Hdir & _) Hdirs pre post Heq Hpre. apply Hdir. by eapply Hdirs. Qed.

(** X21.  The command does not run twice for one configuration.  After a
    run that ended on the line of the service, a run that reads the same
    configuration from the disk the first one left returns normally, prints
    in red the message of the duplicate it met (the DTOs when they are asked
    for, since they are generated first, the service otherwise) and leaves
    the disk as it found it. *)
Theorem generate_service_again env cfg cfg' w config w1 w' w1' :
  let module_path :=
    ModuleManager.get_module_path ModuleManager.default (ServiceConfig.module config) in
  let dto :=
    DTOGenerator.make module_path (ServiceConfig.name config) (ServiceConfig.type config) in
  let svc := ServiceGenerator.make env module_path config in
  cfg w = (Ok config, w1) →
  generate_service env cfg w = (Ok tt, w') →
  List.last (console w') "" = service_created svc →
  cfg' w' = (Ok config, w1') →
  disk w1' = disk w' →
  generate_service env cfg' w'
  = (Ok tt, shown (reported (if ServiceConfig.create_dtos config
                             then DTOGenerator.duplicate dto
                             else ServiceGenerator.duplicate svc)) w1').
Proof.
  intros module_path dto svc Hcfg Hrun Hlast Hcfg' Hdisk.
  rewrite (generate_service_run env cfg w config w1 Hcfg) in Hrun.
  rewrite (generate_service_run env cfg' w' config w1' Hcfg').
  cbv zeta in *. fold module_path dto svc in Hrun |- *.
  assert (∀ classes w2,
            match ServiceGenerator.generate svc classes.1 classes.2 w2 with
            | (Ok _, w3) => (Ok tt, shown (service_created svc) w3)
            | (Raised e, w3) =>
                if bool_decide (kind e ∈ [FileNotFoundError; FileExistsError; ValueError])
                then (Ok tt, shown (reported e) w3) else (Raised e, w3)
            end = (Ok tt, w') →
            ∃ w3, ServiceGenerator.generate svc classes.1 classes.2 w2 = (Ok tt, w3)
                  ∧ disk w' = disk w3) as Hfinish.
  { intros classes w2 Hfin.
    destruct (ServiceGenerator.generate svc classes.1 classes.2 w2) as [[[]|e] w3].
    - exists w3. split; [done|]. by simplify_eq.
    - case_bool_decide; [|done]. simplify_eq. cbn [shown console] in Hlast.
      rewrite last_last in Hlast. by destruct (reported_is_not_service_created e svc). }
  destruct (ServiceConfig.create_dtos config).
  - destruct (DTOGenerator.generate dto w1) as [[classes|e] w2] eqn:Hdto.
    + destruct (Hfinish _ _ Hrun) as (w3 & Hsvc & Hw3).
      destruct (service_generate_frame [ServiceGenerator.service_file svc] svc
                  classes.1 classes.2 (shown (dtos_created dto) w2)) as [Hf _]; [by left|].
      rewrite Hsvc in Hf. cbn [snd shown disk] in Hf.
      pose proof (dto_generate_ok_all_dirs _ _ _ _ Hdto) as Hdirs.
      destruct (dto_generate_ok _ _ _ _ Hdto) as (Hreq & _ & _).
      assert (path_exists (disk w3) (DTOGenerator.request_file dto) = true) as Hthere.
      { destruct Hf as (_ & _ & Hkeep). apply Hkeep, path_exists_stat. by eexists. }
      apply path_exists_stat in Hthere as [n Hn].
      rewrite (dto_generate_stops dto w1' n).
      * done.
      * rewrite Hdisk, Hw3. by eapply all_dirs_kept.
      * by rewrite Hdisk, Hw3.
    + case_bool_decide; [|done]. simplify_eq. cbn [shown console] in Hlast.
      rewrite last_last in Hlast. by destruct (reported_is_not_service_created e svc).
  - destruct (Hfinish _ _ Hrun) as (w3 & Hsvc & Hw3).
    destruct (service_generate_ok _ _ _ _ _ Hsvc) as (Hdirs & content & Hfile).
    rewrite (service_generate_stops svc _ _ w1' (File content)).
    + done.
    + by rewrite Hdisk, Hw3.
    + by rewrite Hdisk, Hw3.
Qed.

Lemma generate_service_again_witness :
  let T := sample_terminal [(type_prompt, "2"); (name_prompt, "invoice"); (module_prompt, "2")] in
  let w' := (generate_service sample_env (get_service_config T) (World modules_disk [])).2 in
  generate_service sample_env (get_service_config T) w'
  = (Ok tt, shown "[bold red]❌ Já existem DTOs para invoice[/bold red]"
              (shown (modules_panel T ["billing"; "inventory"]) (shown (types_panel T) w'))).
Proof.
  intros T w'.
  apply (generate_service_again sample_env (get_service_config T) (get_service_config T)
           (World modules_disk [])
           (ServiceConfig.mk "invoice" "inventory" "application" true)
           (shown (modules_panel T ["billing"; "inventory"])
              (shown (types_panel T) (World modules_disk [])))
           w'
           (shown (modules_panel T ["billing"; "inventory"]) (shown (types_panel T) w')));
    vm_compute; reflexivity.
Defined.
